(** * deepchem/utils/evaluate.py: evaluation of a model on a dataset

    A shallow embedding of [undo_transforms], [compute_roc_auc_scores] and
    the [Evaluator] class, followed by the properties of the evaluation
    pipeline.  Python exceptions and the side effects of the module (calls
    to [log], [warnings.warn] and [DataFrame.to_csv]) are threaded through
    a small trace-and-exception monad. *)

From Stdlib Require Import List String ZArith Bool Lia PeanoNat.
From Stdlib Require Import Floats.PrimFloat Floats.SpecFloat Floats.FloatOps.
Import ListNotations.

Set Implicit Arguments.

(** ** Python values, exceptions and effects *)

(** The exception classes that the module raises, catches or lets through. *)
Inductive exn : Type :=
| NameError (msg : string)
| TypeError (msg : string)
| ValueError (msg : string)
| KeyError (key : string)
| AttributeError (attr : string)
| IndexError (msg : string)
| StopIteration
| RuntimeError (msg : string).

(** [except ValueError] *)
Definition is_ValueError (e : exn) : bool :=
  match e with ValueError _ => true | _ => false end.

(** A call either returns a value or raises. *)
Inductive outcome (A : Type) : Type :=
| Returned (a : A)
| Raised (e : exn).
Arguments Returned {A} a.
Arguments Raised {A} e.

(** numpy arrays of float64 (the [.values] of a numeric column). *)
Definition vec := list float.

(** [pred_y_df]: a pandas DataFrame seen as its columns, in order. *)
Definition DataFrame := list (string * vec).

(** One cell of the performance table: the task name or a score. *)
Inductive cell : Type :=
| CStr (s : string)
| CNum (x : float).

(** [performance_df]: the column names given to [pd.DataFrame(columns=...)]
    and the rows set so far, each under its index label, in insertion
    order. *)
Record PerfFrame : Type := mkPerfFrame {
  columns : list string;
  rows : list (nat * list cell)
}.

Inductive table : Type :=
| PredTable (df : DataFrame)
| PerfTable (df : PerfFrame).

(** What the module does to the outside world. *)
Inductive event : Type :=
| EvLog (msg : string) (verbose : bool)
| EvWarn (msg : string)
| EvToCsv (dest : string) (t : table).

(** Computations: the events so far go in, the outcome and the events
    after it come out.  An exception keeps the events that preceded it. *)
Definition M (A : Type) : Type := list event -> outcome A * list event.

Definition ret {A} (a : A) : M A := fun tr => (Returned a, tr).

Definition raise {A} (e : exn) : M A := fun tr => (Raised e, tr).

Definition bind {A B} (m : M A) (k : A -> M B) : M B :=
  fun tr =>
    match m tr with
    | (Returned a, tr') => k a tr'
    | (Raised e, tr') => (Raised e, tr')
    end.

Definition emit (e : event) : M unit := fun tr => (Returned tt, (tr ++ [e])%list).

Definition lift {A} (o : outcome A) : M A := fun tr => (o, tr).

(** [try: body  except <catches>: handler] *)
Definition try_except {A} (body : M A) (catches : exn -> bool) (handler : M A) : M A :=
  fun tr =>
    match body tr with
    | (Raised e, tr') => if catches e then handler tr' else (Raised e, tr')
    | r => r
    end.

Declare Scope py_scope.
Delimit Scope py_scope with py.
Notation "x <- m ;; k" := (bind m (fun x => k))
  (at level 61, m at next level, right associativity) : py_scope.
Notation "' pat <- m ;; k" := (bind m (fun x => match x with pat => k end))
  (at level 61, pat pattern, m at next level, right associativity) : py_scope.
Notation "m ;; k" := (bind m (fun _ => k))
  (at level 61, right associativity) : py_scope.
Open Scope py_scope.

(** [for x in xs: s = body(x, s)] *)
Fixpoint for_each {A S} (xs : list A) (body : A -> S -> M S) (s : S) : M S :=
  match xs with
  | [] => ret s
  | x :: xs' => s' <- body x s ;; for_each xs' body s'
  end.

(** [enumerate(xs)] *)
Definition enumerate {A} (xs : list A) : list (nat * A) :=
  combine (seq 0 (List.length xs)) xs.

(** ** The module's global namespace *)

(** Every name bound at the top level of evaluate.py, in binding order:
    the [__future__] flags, the imports, the three dunder strings and the
    two functions and the class that the module defines. *)
Definition module_globals : list string :=
  ["print_function"; "division"; "unicode_literals";
   "np"; "warnings"; "log"; "mean_squared_error"; "roc_auc_score";
   "r2_score"; "matthews_corrcoef"; "recall_score"; "accuracy_score"; "pd";
   "__author__"; "__copyright__"; "__license__";
   "undo_transforms"; "compute_roc_auc_scores"; "Evaluator"]%string.

(** Reading a name that no function assigns: it is looked up among the
    module's globals (no builtin is called [transform] or
    [undo_transform]). *)
Definition load_global (name : string) : M unit :=
  if existsb (String.eqb name) module_globals
  then ret tt
  else raise (NameError ("global name '" ++ name ++ "' is not defined")%string).

(** ** pandas and numpy operations used by the module *)

(** The column of [df] called [col], if there is one. *)
Definition column (df : DataFrame) (col : string) : option vec :=
  option_map snd (find (fun c => String.eqb (fst c) col) df).

(** [df[col].values] *)
Definition getitem (df : DataFrame) (col : string) : M vec :=
  match column df col with
  | Some v => ret v
  | None => raise (KeyError col)
  end.

(** [w.nonzero()]: the positions of the entries that differ from zero. *)
Fixpoint nonzero_from (k : nat) (w : vec) : list nat :=
  match w with
  | [] => []
  | x :: w' =>
      if PrimFloat.eqb x 0 then nonzero_from (S k) w'
      else k :: nonzero_from (S k) w'
  end.

Definition nonzero (w : vec) : list nat := nonzero_from 0 w.

(** [y[idx]] for an array of positions. *)
Fixpoint take (y : vec) (idx : list nat) : M vec :=
  match idx with
  | [] => ret []
  | k :: idx' =>
      match nth_error y k with
      | Some v => vs <- take y idx' ;; ret (v :: vs)
      | None => raise (IndexError "index out of bounds")
      end
  end.

(** [df.loc[i] = row]: replaces the row labelled [i] or, when there is
    none, adds it after the others.  The rows set by the module always
    have as many cells as the frame has columns. *)
Fixpoint set_row (i : nat) (r : list cell) (rs : list (nat * list cell))
  : list (nat * list cell) :=
  match rs with
  | [] => [(i, r)]
  | (j, r') :: rest =>
      if Nat.eqb i j then (i, r) :: rest else (j, r') :: set_row i r rest
  end.

Definition loc_set (i : nat) (r : list cell) (df : PerfFrame) : PerfFrame :=
  mkPerfFrame (columns df) (set_row i r (rows df)).

(** [df.loc[i]] *)
Definition loc_get (i : nat) (df : PerfFrame) : option (list cell) :=
  option_map snd (find (fun r => Nat.eqb (fst r) i) (rows df)).

Definition np_nan : float := PrimFloat.nan.
Definition np_sqrt (x : float) : float := PrimFloat.sqrt x.

(** The library functions the module imports: numpy's cast to [int] and
    the six sklearn metrics.  A metric returns a score or raises. *)
Class Externals : Type := {
  astype_int : float -> Z;
  roc_auc_score : list Z -> list Z -> outcome float;
  matthews_corrcoef : list Z -> list Z -> outcome float;
  recall_score : list Z -> list Z -> outcome float;
  accuracy_score : list Z -> list Z -> outcome float;
  r2_score : vec -> vec -> outcome float;
  mean_squared_error : vec -> vec -> outcome float
}.

(** ** Collaborators *)

(** Modelled from the spec: the Transform descriptor, whose class is not
    in evaluate.py.  A transform is of kind [log], [normalize] (with its
    mean and standard deviation), identity, or of some other kind. *)
Inductive Transform : Type :=
| TIdentity
| TLog
| TNormalize (mean std : float)
| TOther (kind : string).

Record Dataset : Type := mkDataset {
  get_task_names : list string;
  get_output_transforms : list Transform
}.

(** [task_types] is a dict from task name to task type, in iteration
    order. *)
Record Model : Type := mkModel {
  predict : Dataset -> outcome DataFrame;
  task_types : list (string * string)
}.

(** ** undo_transforms (lines 44-49) *)

(** The loop body reads the global [transform]; nothing the module binds
    has an attribute [unstranform]. *)
Definition undo_transforms {T} (y : vec) (transformers : list T) : M vec :=
  for_each (rev transformers)
    (fun (transformer : T) (y : vec) =>
       load_global "transform" ;;
       raise (AttributeError "unstranform"))
    y.

(** A call of [undo_transforms]: both parameters are positional and have
    no default; [None] stands for an argument the call does not pass. *)
Definition undo_transforms_call {T} (y : vec) (transformers : option (list T))
  : M vec :=
  match transformers with
  | Some ts => undo_transforms y ts
  | None =>
      raise (TypeError "undo_transforms() takes exactly 2 arguments (1 given)")
  end.

Section WithExternals.
Context {ext : Externals}.

(** ** compute_roc_auc_scores (lines 51-66) *)

Definition compute_roc_auc_scores (y y_pred : list Z) : M float :=
  try_except
    (lift (roc_auc_score y y_pred))
    is_ValueError
    (emit (EvWarn "ROC AUC score calculation failed.") ;;
     ret 0.5%float).

(** ** class Evaluator (lines 68-130) *)

Record Evaluator : Type := mkEvaluator {
  model : Model;
  dataset : Dataset;
  transformers : list Transform;
  task_names : list string;
  task_type : string;
  output_transforms : list Transform;
  verbose : bool
}.

(** [__init__]: [model.task_types.itervalues().next()] is the first value
    of the dict, and raises StopIteration on an empty one. *)
Definition Evaluator_init (model : Model) (dataset : Dataset)
    (transformers : list Transform) (verbose : bool) : outcome Evaluator :=
  match task_types model with
  | [] => Raised StopIteration
  | (_, ty) :: _ =>
      Returned (mkEvaluator model dataset transformers
                  (get_task_names dataset) ty
                  (get_output_transforms dataset) verbose)
  end.

Definition classification_colnames : list string :=
  ["task_name"; "roc_auc_score"; "matthews_corrcoef";
   "recall_score"; "accuracy_score"]%string.

Definition regression_colnames : list string :=
  ["task_name"; "r2_score"; "rms_error"]%string.

(** Lines 101-103: the three columns of a task. *)
Definition slice_task (pred_y_df : DataFrame) (task_name : string)
  : M (vec * vec * vec) :=
  y <- getitem pred_y_df task_name ;;
  y_pred <- getitem pred_y_df (task_name ++ "_pred")%string ;;
  w <- getitem pred_y_df (task_name ++ "_weight")%string ;;
  ret (y, y_pred, w).

(** Lines 104-105: [undo_transforms] is called with the vector alone, and
    the second call names [undo_transform], which the module does not
    bind: what follows the lookup of that name is never run. *)
Definition reverse_task_transforms (y y_pred : vec) : M (vec * vec) :=
  y <- (load_global "undo_transforms" ;;
        undo_transforms_call y (@None (list Transform))) ;;
  y_pred <- (load_global "undo_transform" ;;
             raise (TypeError "object is not callable")) ;;
  ret (y, y_pred).

(** Lines 107-125: the metrics of one task and its row. *)
Definition score_task (self : Evaluator) (i : nat) (task_name : string)
    (y y_pred w : vec) (performance_df : PerfFrame) : M PerfFrame :=
  if String.eqb (task_type self) "classification" then
    y <- take y (nonzero w) ;;
    y_pred <- take y_pred (nonzero w) ;;
    let y := map astype_int y in
    let y_pred := map astype_int y_pred in
    match y with
    | [] => ret performance_df
    | _ :: _ =>
        auc <- compute_roc_auc_scores y y_pred ;;
        mcc <- lift (matthews_corrcoef y y_pred) ;;
        recall <- lift (recall_score y y_pred) ;;
        accuracy <- lift (accuracy_score y y_pred) ;;
        ret (loc_set i [CStr task_name; CNum auc; CNum mcc;
                        CNum recall; CNum accuracy] performance_df)
    end
  else if String.eqb (task_type self) "regression" then
    '(r2s, rms) <-
      try_except
        (r2s <- lift (r2_score y y_pred) ;;
         mse <- lift (mean_squared_error y y_pred) ;;
         ret (r2s, np_sqrt mse))
        is_ValueError
        (ret (np_nan, np_nan)) ;;
    ret (loc_set i [CStr task_name; CNum r2s; CNum rms] performance_df)
  else ret performance_df.

(** Lines 100-125: one iteration of the loop over the tasks. *)
Definition task_body (self : Evaluator) (pred_y_df : DataFrame)
    (it : nat * string) (performance_df : PerfFrame) : M PerfFrame :=
  let '(i, task_name) := it in
  '(y, y_pred, w) <- slice_task pred_y_df task_name ;;
  '(y, y_pred) <- reverse_task_transforms y y_pred ;;
  score_task self i task_name y y_pred w performance_df.

(** Lines 82-130. *)
Definition compute_model_performance (self : Evaluator)
    (csv_out stats_file : string) : M (DataFrame * PerfFrame) :=
  pred_y_df <- lift (predict (model self) (dataset self)) ;;
  emit (EvLog ("Saving predictions to " ++ csv_out)%string (verbose self)) ;;
  emit (EvToCsv csv_out (PredTable pred_y_df)) ;;
  colnames <-
    (if String.eqb (task_type self) "classification"
     then ret classification_colnames
     else if String.eqb (task_type self) "regression"
     then ret regression_colnames
     else raise (ValueError ("Unrecognized task type: " ++ task_type self)%string)) ;;
  performance_df <-
    for_each (enumerate (task_names self)) (task_body self pred_y_df)
      (mkPerfFrame colnames []) ;;
  emit (EvLog ("Saving model performance scores to " ++ stats_file)%string
          (verbose self)) ;;
  emit (EvToCsv stats_file (PerfTable performance_df)) ;;
  ret (pred_y_df, performance_df).

End WithExternals.

(** ** A reference instance of the imported libraries

    numpy's truncating cast and the textbook definitions of the six
    metrics, raising ValueError where sklearn does: on empty or unequal
    inputs and, for ROC-AUC, when the labels hold a single class.  It is
    what the tests below run the module with. *)
Module Reference.

Local Open Scope float_scope.

Definition trunc (x : float) : Z :=
  match FloatOps.Prim2SF x with
  | SpecFloat.S754_finite s m e =>
      let a := if (0 <=? e)%Z then Z.shiftl (Zpos m) e
               else Z.shiftr (Zpos m) (- e) in
      if s then (- a)%Z else a
  | SpecFloat.S754_zero _ => 0%Z
  | _ => (-9223372036854775808)%Z
  end.

Definition fsum (l : list float) : float := fold_left PrimFloat.add l 0.

Definition fcount {A} (p : A -> bool) (l : list A) : float :=
  fsum (map (fun a => if p a then 1 else 0) l).

Definition checked {A} (y y_pred : list A) (score : float) : outcome float :=
  match y with
  | [] => Raised (ValueError "Found array with 0 sample(s)")
  | _ :: _ =>
      if Nat.eqb (List.length y) (List.length y_pred) then Returned score
      else Raised (ValueError "Found arrays with inconsistent numbers of samples")
  end.

Definition hits (a b : Z) (y y_pred : list Z) : float :=
  fcount (fun p => Z.eqb (fst p) a && Z.eqb (snd p) b) (combine y y_pred).

Definition accuracy (y y_pred : list Z) : outcome float :=
  checked y y_pred
    (fcount (fun p => Z.eqb (fst p) (snd p)) (combine y y_pred)
     / fcount (fun _ => true) y).

Definition recall (y y_pred : list Z) : outcome float :=
  let tp := hits 1 1 y y_pred in
  let fn := hits 1 0 y y_pred in
  checked y y_pred (if (tp + fn =? 0) then 0 else tp / (tp + fn)).

Definition mcc (y y_pred : list Z) : outcome float :=
  let tp := hits 1 1 y y_pred in
  let tn := hits 0 0 y y_pred in
  let fp := hits 0 1 y y_pred in
  let fn := hits 1 0 y y_pred in
  let den := PrimFloat.sqrt ((tp + fp) * (tp + fn) * (tn + fp) * (tn + fn)) in
  checked y y_pred (if (den =? 0) then 0 else (tp * tn - fp * fn) / den).

Definition auc_pairs (y y_pred : list Z) : float :=
  let pos := map snd (filter (fun p => Z.eqb (fst p) 1) (combine y y_pred)) in
  let neg := map snd (filter (fun p => negb (Z.eqb (fst p) 1)) (combine y y_pred)) in
  fsum (map (fun s =>
          fsum (map (fun t => if (t <? s)%Z then 1
                              else if (t =? s)%Z then 0.5 else 0) neg)) pos)
  / (fcount (fun _ => true) pos * fcount (fun _ => true) neg).

Definition roc_auc (y y_pred : list Z) : outcome float :=
  match checked y y_pred 0 with
  | Raised e => Raised e
  | Returned _ =>
      if forallb (fun a => Z.eqb a 1) y || forallb (fun a => negb (Z.eqb a 1)) y
      then Raised (ValueError "Only one class present in y_true. ROC AUC score is not defined in that case.")
      else Returned (auc_pairs y y_pred)
  end.

Definition mse (y y_pred : vec) : outcome float :=
  checked y y_pred
    (fsum (map (fun p => (fst p - snd p) * (fst p - snd p)) (combine y y_pred))
     / fcount (fun _ => true) y).

Definition r2 (y y_pred : vec) : outcome float :=
  let mean := fsum y / fcount (fun _ => true) y in
  let num := fsum (map (fun p => (fst p - snd p) * (fst p - snd p)) (combine y y_pred)) in
  let den := fsum (map (fun a => (a - mean) * (a - mean)) y) in
  checked y y_pred
    (if (den =? 0) then (if (num =? 0) then 1 else 0) else 1 - num / den).

Definition externals : Externals :=
  {| astype_int := trunc;
     roc_auc_score := roc_auc;
     matthews_corrcoef := mcc;
     recall_score := recall;
     accuracy_score := accuracy;
     r2_score := r2;
     mean_squared_error := mse |}.

End Reference.

(** ** Test fixtures *)

(** A prediction table with one task, [t1], of three examples. *)
Definition table1 : DataFrame :=
  [("t1", [0; 1; 1]%float);
   ("t1_pred", [0; 1; 0]%float);
   ("t1_weight", [1; 1; 1]%float)]%string.

Definition dataset1 : Dataset := mkDataset ["t1"%string] [].

Definition model_of (ty : string) : Model :=
  mkModel (fun _ => Returned table1) [("t1", ty)]%string.

Definition evaluator_of (ty : string) : Evaluator :=
  mkEvaluator (model_of ty) dataset1 [] ["t1"%string] ty [] false.

Definition empty_frame (ty : string) : PerfFrame :=
  mkPerfFrame
    (if String.eqb ty "classification" then classification_colnames
     else regression_colnames) [].

(** An evaluator over a dataset without tasks. *)
Definition evaluator_no_tasks (ty : string) : Evaluator :=
  mkEvaluator (model_of ty) (mkDataset [] []) [] [] ty [] false.

(** The table of [t1] without its weights. *)
Definition table_no_weight : DataFrame :=
  [("t1", [0; 1; 1]%float); ("t1_pred", [0; 1; 0]%float)]%string.

(** The table of [t1] with its predictions only. *)
Definition table_pred_only : DataFrame :=
  [("t1_pred", [0; 1; 0]%float)]%string.


(** [t1] with a second example of weight zero. *)
Definition table_mixed_weight : DataFrame :=
  [("t1", [1; 2]%float);
   ("t1_pred", [1; 2]%float);
   ("t1_weight", [1; 0]%float)]%string.

(** [t1] with a single class among its labels. *)
Definition table_single_class : DataFrame :=
  [("t1", [0; 0]%float);
   ("t1_pred", [0; 1]%float);
   ("t1_weight", [1; 1]%float)]%string.

(** [t1] without examples. *)
Definition table_empty : DataFrame :=
  [("t1", []); ("t1_pred", []); ("t1_weight", [])]%string.

(** An evaluator of one task, [t1], over a model with the given [predict]. *)
Definition evaluator_with (p : Dataset -> outcome DataFrame) (ty : string)
  : Evaluator :=
  mkEvaluator (mkModel p [("t1", ty)]%string) dataset1 [] ["t1"%string]
    ty [] false.

(** The reference libraries with one metric replaced by a constant
    outcome. *)
Definition with_roc_auc (o : outcome float) : Externals :=
  {| astype_int := Reference.trunc;
     roc_auc_score := fun _ _ => o;
     matthews_corrcoef := Reference.mcc;
     recall_score := Reference.recall;
     accuracy_score := Reference.accuracy;
     r2_score := Reference.r2;
     mean_squared_error := Reference.mse |}.

Definition with_mcc (o : outcome float) : Externals :=
  {| astype_int := Reference.trunc;
     roc_auc_score := Reference.roc_auc;
     matthews_corrcoef := fun _ _ => o;
     recall_score := Reference.recall;
     accuracy_score := Reference.accuracy;
     r2_score := Reference.r2;
     mean_squared_error := Reference.mse |}.

Definition with_r2 (o : outcome float) : Externals :=
  {| astype_int := Reference.trunc;
     roc_auc_score := Reference.roc_auc;
     matthews_corrcoef := Reference.mcc;
     recall_score := Reference.recall;
     accuracy_score := Reference.accuracy;
     r2_score := fun _ _ => o;
     mean_squared_error := Reference.mse |}.

Definition with_mse (o : outcome float) : Externals :=
  {| astype_int := Reference.trunc;
     roc_auc_score := Reference.roc_auc;
     matthews_corrcoef := Reference.mcc;
     recall_score := Reference.recall;
     accuracy_score := Reference.accuracy;
     r2_score := Reference.r2;
     mean_squared_error := fun _ _ => o |}.

(** ** Notions used in the statements *)


(** The column names that lines 90-94 choose for a task type. *)
Definition colnames_of (ty : string) : option (list string) :=
  if String.eqb ty "classification" then Some classification_colnames
  else if String.eqb ty "regression" then Some regression_colnames
  else None.

(** What the first iteration of the loop raises on task [t]: KeyError
    with the first of its three columns that the table lacks, TypeError
    when it lacks none. *)
Definition first_task_error (df : DataFrame) (t : string) : exn :=
  match column df t with
  | None => KeyError t
  | Some _ =>
      match column df (t ++ "_pred")%string with
      | None => KeyError (t ++ "_pred")%string
      | Some _ =>
          match column df (t ++ "_weight")%string with
          | None => KeyError (t ++ "_weight")%string
          | Some _ =>
              TypeError "undo_transforms() takes exactly 2 arguments (1 given)"
          end
      end
  end.

(** The events of the first half of a run: the predictions are logged
    and written. *)
Definition predictions_saved (self : Evaluator) (csv_out : string)
    (df : DataFrame) : list event :=
  [EvLog ("Saving predictions to " ++ csv_out)%string (verbose self);
   EvToCsv csv_out (PredTable df)].

(** The events of the second half: the scores are logged and written. *)
Definition stats_saved (self : Evaluator) (stats_file : string)
    (perf : PerfFrame) : list event :=
  [EvLog ("Saving model performance scores to " ++ stats_file)%string
     (verbose self);
   EvToCsv stats_file (PerfTable perf)].

(** The warning of the ROC-AUC fallback. *)
Definition roc_auc_warning : event :=
  EvWarn "ROC AUC score calculation failed.".

(** The boolean mask of the nonzero weights, applied to [y]. *)
Definition mask (w y : vec) : vec :=
  map fst (filter (fun p => negb (PrimFloat.eqb (snd p) 0)) (combine y w)).

(** Every weight is zero. *)
Definition all_zero (w : vec) : Prop :=
  Forall (fun x => PrimFloat.eqb x 0 = true) w.

(** A configuration error is a ValueError, the class the module raises
    for an unrecognized task type. *)
Definition configuration_error {A} (o : outcome A) : Prop :=
  exists msg, o = Raised (ValueError msg).

(** Two vectors agree on the examples that [w] gives a nonzero weight. *)
Definition agree_on_weighted (w y1 y2 : vec) : Prop :=
  forall k x, nth_error w k = Some x -> PrimFloat.eqb x 0 = false ->
              nth_error y1 k = nth_error y2 k.

Definition unrecognized (ty : string) : Prop :=
  ty <> "classification"%string /\ ty <> "regression"%string.

(** * Properties *)

(** Decides the comparisons of string literals in the goal. *)
Ltac eval_eqb :=
  repeat match goal with
         | |- context [String.eqb ?a ?b] =>
             let v := eval vm_compute in (String.eqb a b) in
             change (String.eqb a b) with v
         end;
  cbv iota.

(** ** The monad *)

Lemma bind_returned {A B} (m : M A) (k : A -> M B) tr a tr' :
  m tr = (Returned a, tr') -> bind m k tr = k a tr'.
Proof. unfold bind. intros ->. reflexivity. Qed.

Lemma bind_raised {A B} (m : M A) (k : A -> M B) tr e tr' :
  m tr = (Raised e, tr') -> bind m k tr = (Raised e, tr').
Proof. unfold bind. intros ->. reflexivity. Qed.

Lemma bind_congr {A B} (m1 m2 : M A) (k1 k2 : A -> M B) tr :
  m1 tr = m2 tr ->
  (forall a tr', k1 a tr' = k2 a tr') ->
  bind m1 k1 tr = bind m2 k2 tr.
Proof.
  intros Hm Hk. unfold bind. rewrite Hm.
  destruct (m2 tr) as [[a|e] tr']; [apply Hk | reflexivity].
Qed.

(** A loop whose body raises on its first item raises there. *)
Lemma for_each_first_raises {A S} (x : A) (xs : list A)
    (body : A -> S -> M S) (s : S) tr e tr' :
  body x s tr = (Raised e, tr') ->
  for_each (x :: xs) body s tr = (Raised e, tr').
Proof. intros H. simpl. now apply bind_raised. Qed.

Lemma rev_cons_nonempty {A} (x : A) (xs : list A) :
  exists z zs, rev (x :: xs) = z :: zs.
Proof.
  simpl. destruct (rev xs) as [|z zs]; simpl; eauto.
Qed.

(** ** undo_transforms *)

Lemma load_transform_unbound tr :
  load_global "transform" tr
  = (Raised (NameError "global name 'transform' is not defined"), tr).
Proof. reflexivity. Qed.

Lemma undo_transforms_nonempty {T} (y : vec) (t : T) (ts : list T) tr :
  undo_transforms y (t :: ts) tr
  = (Raised (NameError "global name 'transform' is not defined"), tr).
Proof.
  unfold undo_transforms.
  destruct (rev_cons_nonempty t ts) as (z & zs & ->).
  apply for_each_first_raises.
  apply bind_raised, load_transform_unbound.
Qed.

(** C6: with an empty transform sequence, [undo_transforms] returns the
    vector it was given, unchanged, and does nothing else. *)
Theorem undo_transforms_empty {T} (v : vec) tr :
  undo_transforms v (@nil T) tr = (Returned v, tr).
Proof. reflexivity. Qed.

(** C5: on any sequence of one transform or more, the loop of
    [undo_transforms] raises NameError in its first iteration, whatever
    the vector and the transforms: no transform is undone, in reverse
    order or in any other. *)
Theorem undo_transforms_raises_NameError {T} (y : vec) (t : T) (ts : list T) tr :
  undo_transforms y (t :: ts) tr
  = (Raised (NameError "global name 'transform' is not defined"), tr).
Proof. apply undo_transforms_nonempty. Qed.



(** The same sequence with a recognized kind in the place of the
    unrecognized one ends in the same way. *)
Example recognized_kinds_raise_NameError :
  undo_transforms [1%float] [TLog; TNormalize 2 3] []
  = (Raised (NameError "global name 'transform' is not defined"), []).
Proof. reflexivity. Qed.

(** ** Masking by weight *)

Lemma take_pure (y : vec) (idx : list nat) :
  exists o, forall tr, take y idx tr = (o, tr).
Proof.
  induction idx as [|k idx (o & IH)]; simpl.
  - now exists (Returned []).
  - destruct (nth_error y k) as [v|].
    + destruct o as [vs|e].
      * exists (Returned (v :: vs)). intros tr. unfold bind. now rewrite IH.
      * exists (Raised e). intros tr. unfold bind. now rewrite IH.
    + eexists. intros tr. reflexivity.
Qed.

Lemma take_agree (y1 y2 : vec) (idx : list nat) :
  (forall k, In k idx -> nth_error y1 k = nth_error y2 k) ->
  forall tr, take y1 idx tr = take y2 idx tr.
Proof.
  induction idx as [|k idx IH]; intros H tr; simpl; [reflexivity|].
  rewrite (H k (or_introl eq_refl)).
  destruct (nth_error y2 k); [|reflexivity].
  unfold bind. rewrite IH; [reflexivity|].
  intros j Hj. apply H. now right.
Qed.

Lemma take_shift (a : float) (y : vec) (idx : list nat) tr :
  take (a :: y) (map S idx) tr = take y idx tr.
Proof.
  induction idx as [|k idx IH]; simpl; [reflexivity|].
  destruct (nth_error y k); [|reflexivity].
  unfold bind. now rewrite IH.
Qed.

Lemma nonzero_from_S (k : nat) (w : vec) :
  nonzero_from (S k) w = map S (nonzero_from k w).
Proof.
  revert k. induction w as [|x w IH]; intros k; simpl; [reflexivity|].
  rewrite IH. now destruct (PrimFloat.eqb x 0).
Qed.

(** Indexing by [w.nonzero()] is masking by the nonzero weights. *)
Lemma take_nonzero_mask (w y : vec) tr :
  List.length y = List.length w ->
  take y (nonzero w) tr = (Returned (mask w y), tr).
Proof.
  unfold nonzero. revert y tr.
  induction w as [|x w IH]; intros [|a y] tr Hlen; try discriminate Hlen.
  - reflexivity.
  - injection Hlen as Hlen. specialize (IH y). unfold mask in *. simpl.
    rewrite nonzero_from_S.
    destruct (PrimFloat.eqb x 0); simpl.
    + rewrite take_shift. now apply IH.
    + unfold bind. rewrite take_shift, IH by assumption. reflexivity.
Qed.

(** The positions in [w.nonzero()] are those of the nonzero weights. *)
Lemma nonzero_from_In (n : nat) (w : vec) (k : nat) :
  In k (nonzero_from n w) ->
  exists j x, k = n + j /\ nth_error w j = Some x /\ PrimFloat.eqb x 0 = false.
Proof.
  revert n. induction w as [|a w IH]; intros n H; simpl in H; [contradiction|].
  destruct (PrimFloat.eqb a 0) eqn:E.
  - apply IH in H as (j & x & -> & Hj & Hx).
    exists (S j), x. repeat split; [lia | assumption | assumption].
  - destruct H as [<- | H].
    + exists 0, a. repeat split; [lia | assumption].
    + apply IH in H as (j & x & -> & Hj & Hx).
      exists (S j), x. repeat split; [lia | assumption | assumption].
Qed.

Lemma take_agree_on_weighted (w y1 y2 : vec) tr :
  agree_on_weighted w y1 y2 ->
  take y1 (nonzero w) tr = take y2 (nonzero w) tr.
Proof.
  intros H. apply take_agree. intros k Hk.
  apply nonzero_from_In in Hk as (j & x & -> & Hj & Hx).
  exact (H j x Hj Hx).
Qed.

Lemma nonzero_from_all_zero (k : nat) (w : vec) :
  all_zero w -> nonzero_from k w = [].
Proof.
  intros H. revert k. induction H as [|x w Hx _ IH]; intros k; simpl.
  - reflexivity.
  - rewrite Hx. apply IH.
Qed.

(** ** The evaluator *)

Section EvaluatorProperties.
Context {ext : Externals}.

Lemma set_row_length (i : nat) (r : list cell) rs :
  List.length (set_row i r rs) <= S (List.length rs).
Proof.
  induction rs as [|[j r'] rs IH]; simpl; [lia|].
  destruct (Nat.eqb i j); simpl; lia.
Qed.

Lemma loc_get_loc_set (i : nat) (r : list cell) (df : PerfFrame) :
  loc_get i (loc_set i r df) = Some r.
Proof.
  unfold loc_get, loc_set. simpl.
  induction (rows df) as [|[j r'] rs IH]; simpl.
  - now rewrite Nat.eqb_refl.
  - destruct (Nat.eqb i j) eqn:E; simpl.
    + now rewrite Nat.eqb_refl.
    + rewrite Nat.eqb_sym, E. exact IH.
Qed.

(** Up to the check of the task type, a run predicts, logs and writes
    the predictions. *)
Lemma run_unrecognized_task_type (self : Evaluator) csv_out stats_file tr df :
  predict (model self) (dataset self) = Returned df ->
  unrecognized (task_type self) ->
  compute_model_performance self csv_out stats_file tr
  = (Raised (ValueError ("Unrecognized task type: " ++ task_type self)%string),
     (tr ++ [EvLog ("Saving predictions to " ++ csv_out)%string (verbose self);
             EvToCsv csv_out (PredTable df)])%list).
Proof.
  intros Hpred [Hc Hr].
  apply String.eqb_neq in Hc. apply String.eqb_neq in Hr.
  unfold compute_model_performance, bind, lift, emit, raise.
  rewrite Hpred, Hc, Hr. now rewrite <- app_assoc.
Qed.

(** The call at line 104 raises as soon as the three columns of the task
    are there. *)
Lemma task_body_raises (self : Evaluator) df i t y y_pred w performance_df tr :
  column df t = Some y ->
  column df (t ++ "_pred")%string = Some y_pred ->
  column df (t ++ "_weight")%string = Some w ->
  task_body self df (i, t) performance_df tr
  = (Raised (TypeError "undo_transforms() takes exactly 2 arguments (1 given)"),
     tr).
Proof.
  intros Hy Hp Hw.
  unfold task_body, slice_task, getitem, bind.
  rewrite Hy, Hp, Hw. reflexivity.
Qed.

(** C10: when the task type is neither "classification" nor
    "regression", a run first obtains the prediction table, logs and
    writes it to the predictions sink, and then raises the configuration
    error: the events of the run are these two and no other, so nothing
    is written to the stats sink, and no table is returned. *)
Theorem predictions_written_before_task_type_error
    (self : Evaluator) csv_out stats_file tr df
    (Hpred : predict (model self) (dataset self) = Returned df)
    (Hty : unrecognized (task_type self)) :
  compute_model_performance self csv_out stats_file tr
  = (Raised (ValueError ("Unrecognized task type: " ++ task_type self)%string),
     (tr ++ [EvLog ("Saving predictions to " ++ csv_out)%string (verbose self);
             EvToCsv csv_out (PredTable df)])%list).
Proof. now apply run_unrecognized_task_type. Qed.

(** C4, amended: the constructor does not validate the task type.  For
    every first task type of the model, recognized or not, it returns an
    evaluator that holds it, over the model and the dataset it was
    given.  When that type is unrecognized, the configuration error is
    raised by [compute_model_performance], after the model has predicted
    and the predictions have been logged and written, and nothing else
    is written. *)
Theorem task_type_checked_at_run_not_at_construction
    (m : Model) (ds : Dataset) (trs : list Transform) (v : bool)
    (k ty : string) (rest : list (string * string))
    (Htypes : task_types m = (k, ty) :: rest) :
  exists self,
    Evaluator_init m ds trs v = Returned self
    /\ task_type self = ty
    /\ model self = m
    /\ dataset self = ds
    /\ (unrecognized ty ->
        forall df csv_out stats_file tr,
          predict m ds = Returned df ->
          compute_model_performance self csv_out stats_file tr
          = (Raised (ValueError ("Unrecognized task type: " ++ ty)%string),
             (tr ++ [EvLog ("Saving predictions to " ++ csv_out)%string v;
                     EvToCsv csv_out (PredTable df)])%list)).
Proof.
  unfold Evaluator_init. rewrite Htypes.
  eexists. split; [reflexivity|]. repeat split.
  intros Hty df csv_out stats_file tr Hpred.
  rewrite (@run_unrecognized_task_type _ csv_out stats_file tr df); auto.
Qed.

(** C1: with a recognized task type, a first task and its three columns
    in the prediction table, a run raises TypeError at the reversal of
    the label vector: [undo_transforms] is called without the transform
    sequence.  Nothing is reversed, no metric is computed and only the
    predictions are written. *)
Theorem reversal_call_raises_TypeError
    (self : Evaluator) csv_out stats_file tr df t rest y y_pred w
    (Hpred : predict (model self) (dataset self) = Returned df)
    (Hty : task_type self = "classification"%string
           \/ task_type self = "regression"%string)
    (Htasks : task_names self = t :: rest)
    (Hy : column df t = Some y)
    (Hp : column df (t ++ "_pred")%string = Some y_pred)
    (Hw : column df (t ++ "_weight")%string = Some w) :
  compute_model_performance self csv_out stats_file tr
  = (Raised (TypeError "undo_transforms() takes exactly 2 arguments (1 given)"),
     (tr ++ [EvLog ("Saving predictions to " ++ csv_out)%string (verbose self);
             EvToCsv csv_out (PredTable df)])%list).
Proof.
  unfold compute_model_performance, lift, emit.
  unfold bind at 1. rewrite Hpred.
  unfold bind at 1. unfold bind at 1.
  rewrite Htasks. unfold enumerate. simpl combine.
  rewrite <- app_assoc. simpl app.
  destruct Hty as [-> | ->]; eval_eqb.
  - unfold bind at 1. unfold ret at 1.
    erewrite bind_raised; [reflexivity|].
    apply for_each_first_raises. eapply task_body_raises; eassumption.
  - unfold bind at 1. unfold ret at 1.
    erewrite bind_raised; [reflexivity|].
    apply for_each_first_raises. eapply task_body_raises; eassumption.
Qed.

End EvaluatorProperties.

(** C4, as stated, fails: a model whose task type is "ranking" gets an
    evaluator; the constructor raises no configuration error. *)
Lemma constructor_accepts_unrecognized_task_type :
  ~ configuration_error
      (Evaluator_init (model_of "ranking") dataset1 [] false).
Proof. intros (msg & H). discriminate H. Qed.

(** ** The metrics of one task *)

Section TaskProperties.
Context {ext : Externals}.

Ltac break_match :=
  match goal with
  | H : context [match ?x with _ => _ end] |- _ => destruct x eqn:?
  | H : context [if ?x then _ else _] |- _ => destruct x eqn:?
  end.

Ltac run_all :=
  unfold score_task, compute_roc_auc_scores, try_except, bind, lift, ret,
    emit, raise in *.

(** A task leaves the table as it is or sets the row of its index. *)
Lemma score_task_returns (self : Evaluator) i name y y_pred w df tr df' tr' :
  score_task self i name y y_pred w df tr = (Returned df', tr') ->
  df' = df \/ exists r, df' = loc_set i r df.
Proof.
  intros H. run_all.
  repeat (break_match; try discriminate H);
    injection H as <- <-; eauto.
Qed.

Lemma score_task_regression_returns
    (self : Evaluator) i name y y_pred w df tr df' tr' :
  task_type self = "regression"%string ->
  score_task self i name y y_pred w df tr = (Returned df', tr') ->
  exists r, df' = loc_set i r df.
Proof.
  intros Hreg H. run_all. rewrite Hreg in H. simpl in H.
  repeat (break_match; try discriminate H);
    injection H as <- <-; eauto.
Qed.

Lemma score_task_rows (self : Evaluator) i name y y_pred w df tr df' tr' :
  score_task self i name y y_pred w df tr = (Returned df', tr') ->
  List.length (rows df') <= S (List.length (rows df)).
Proof.
  intros H. apply score_task_returns in H as [-> | [r ->]].
  - lia.
  - apply set_row_length.
Qed.

Lemma task_body_rows (self : Evaluator) pred_y_df it df tr df' tr' :
  task_body self pred_y_df it df tr = (Returned df', tr') ->
  List.length (rows df') <= S (List.length (rows df)).
Proof.
  destruct it as [i name]. unfold task_body, bind at 1.
  destruct (slice_task pred_y_df name tr) as [[[[y y_pred] w]|e] tr1];
    [|discriminate].
  unfold bind at 1.
  destruct (reverse_task_transforms y y_pred tr1) as [[[y' y_pred']|e] tr2];
    [|discriminate].
  apply score_task_rows.
Qed.

(** A loop whose body adds one row at most adds one row per item at
    most. *)
Lemma for_each_rows {A} (body : A -> PerfFrame -> M PerfFrame) :
  (forall x s tr s' tr', body x s tr = (Returned s', tr') ->
     List.length (rows s') <= S (List.length (rows s))) ->
  forall xs s tr s' tr', for_each xs body s tr = (Returned s', tr') ->
     List.length (rows s') <= List.length xs + List.length (rows s).
Proof.
  intros Hbody. induction xs as [|x xs IH]; intros s tr s' tr' H; simpl in H.
  - injection H as <- <-. simpl. lia.
  - unfold bind in H.
    destruct (body x s tr) as [[s1|e] tr1] eqn:E; [|discriminate H].
    apply Hbody in E. apply IH in H. simpl. lia.
Qed.

Lemma enumerate_length {A} (xs : list A) :
  List.length (enumerate xs) = List.length xs.
Proof.
  unfold enumerate. rewrite length_combine, length_seq. apply Nat.min_id.
Qed.

Lemma run_rows (self : Evaluator) csv_out stats_file tr p perf tr' :
  compute_model_performance self csv_out stats_file tr
  = (Returned (p, perf), tr') ->
  List.length (rows perf) <= List.length (task_names self).
Proof.
  unfold compute_model_performance. intros H.
  unfold bind at 1 in H. destruct (lift _ tr) as [[df|e] tr1]; [|discriminate H].
  unfold bind at 1 in H. destruct (emit _ tr1) as [[u|e] tr2]; [|discriminate H].
  unfold bind at 1 in H. destruct (emit _ tr2) as [[u'|e] tr3]; [|discriminate H].
  unfold bind at 1 in H.
  match type of H with
  | context [match ?c tr3 with _ => _ end] =>
      destruct (c tr3) as [[colnames|e] tr4]; [|discriminate H]
  end.
  unfold bind at 1 in H.
  destruct (for_each _ _ _ tr4) as [[pf|e] tr5] eqn:E; [|discriminate H].
  apply for_each_rows in E;
    [|intros; eapply task_body_rows; eassumption].
  rewrite enumerate_length in E. simpl in E.
  unfold bind, emit, ret in H. injection H as _ <- _. lia.
Qed.

(** X17: in the metrics step, a classification task whose weights are
    all zero gets no row: the table is returned as it was and no metric
    is computed.  A regression task that returns from the step has set
    the row of its index, also when its weights are all zero.  Either
    way the step adds one row at most. *)
Theorem zero_weight_task_skipped_for_classification
    (cls reg : Evaluator) i name y y_pred w df tr
    (Hcls : task_type cls = "classification"%string)
    (Hreg : task_type reg = "regression"%string)
    (Hzero : all_zero w) :
  score_task cls i name y y_pred w df tr = (Returned df, tr)
  /\ (forall df' tr',
        score_task reg i name y y_pred w df tr = (Returned df', tr') ->
        loc_get i df' <> None)
  /\ (forall self df' tr',
        score_task self i name y y_pred w df tr = (Returned df', tr') ->
        List.length (rows df') <= S (List.length (rows df))).
Proof.
  repeat split.
  - unfold score_task. rewrite Hcls. eval_eqb.
    unfold nonzero. rewrite (nonzero_from_all_zero 0 Hzero). reflexivity.
  - intros df' tr' H.
    destruct (score_task_regression_returns _ _ _ _ _ _ _ _ Hreg H) as [r ->].
    rewrite loc_get_loc_set. discriminate.
  - intros self df' tr'. apply score_task_rows.
Qed.

(** The classification branch in terms of the boolean mask. *)
Lemma score_task_classification_masked
    (self : Evaluator) i name y y_pred w df tr :
  task_type self = "classification"%string ->
  List.length y = List.length w ->
  List.length y_pred = List.length w ->
  score_task self i name y y_pred w df tr
  = match map astype_int (mask w y) with
    | [] => (Returned df, tr)
    | _ :: _ =>
        (auc <- compute_roc_auc_scores (map astype_int (mask w y))
                  (map astype_int (mask w y_pred)) ;;
         mcc <- lift (matthews_corrcoef (map astype_int (mask w y))
                        (map astype_int (mask w y_pred))) ;;
         recall <- lift (recall_score (map astype_int (mask w y))
                           (map astype_int (mask w y_pred))) ;;
         accuracy <- lift (accuracy_score (map astype_int (mask w y))
                             (map astype_int (mask w y_pred))) ;;
         ret (loc_set i [CStr name; CNum auc; CNum mcc;
                         CNum recall; CNum accuracy] df)) tr
    end.
Proof.
  intros Hcls Hly Hlp. unfold score_task. rewrite Hcls. eval_eqb.
  rewrite (@bind_returned _ _ (take y (nonzero w)) _ tr _ tr
             (@take_nonzero_mask w y tr Hly)).
  rewrite (@bind_returned _ _ (take y_pred (nonzero w)) _ tr _ tr
             (@take_nonzero_mask w y_pred tr Hlp)).
  destruct (map astype_int (mask w y)); reflexivity.
Qed.

Lemma score_task_classification_nonempty
    (self : Evaluator) i name y y_pred w df tr :
  task_type self = "classification"%string ->
  List.length y = List.length w ->
  List.length y_pred = List.length w ->
  mask w y <> [] ->
  score_task self i name y y_pred w df tr
  = (auc <- compute_roc_auc_scores (map astype_int (mask w y))
              (map astype_int (mask w y_pred)) ;;
     mcc <- lift (matthews_corrcoef (map astype_int (mask w y))
                    (map astype_int (mask w y_pred))) ;;
     recall <- lift (recall_score (map astype_int (mask w y))
                       (map astype_int (mask w y_pred))) ;;
     accuracy <- lift (accuracy_score (map astype_int (mask w y))
                         (map astype_int (mask w y_pred))) ;;
     ret (loc_set i [CStr name; CNum auc; CNum mcc;
                     CNum recall; CNum accuracy] df)) tr.
Proof.
  intros Hcls Hly Hlp Hne.
  rewrite score_task_classification_masked by assumption.
  destruct (mask w y) as [|a ym]; [contradiction | reflexivity].
Qed.

(** X18: in the metrics step of a classification task, on columns as long
    as the weights, the label and prediction vectors are masked by the
    nonzero weights and cast to integers before any metric sees them:
    the task is skipped when the masked labels are empty, and the four
    metrics are otherwise computed on the masked vectors.  Two inputs
    that agree on the examples of nonzero weight therefore get the same
    outcome.  In the step of a regression task the weights are not
    read. *)
Theorem zero_weight_examples_masked_for_classification
    (cls reg : Evaluator) i name y1 y2 p1 p2 w w' df tr
    (Hcls : task_type cls = "classification"%string)
    (Hreg : task_type reg = "regression"%string)
    (Hly : List.length y1 = List.length w)
    (Hlp : List.length p1 = List.length w)
    (Hy : agree_on_weighted w y1 y2)
    (Hp : agree_on_weighted w p1 p2) :
  score_task cls i name y1 p1 w df tr
  = match map astype_int (mask w y1) with
    | [] => (Returned df, tr)
    | _ :: _ =>
        (auc <- compute_roc_auc_scores (map astype_int (mask w y1))
                  (map astype_int (mask w p1)) ;;
         mcc <- lift (matthews_corrcoef (map astype_int (mask w y1))
                        (map astype_int (mask w p1))) ;;
         recall <- lift (recall_score (map astype_int (mask w y1))
                           (map astype_int (mask w p1))) ;;
         accuracy <- lift (accuracy_score (map astype_int (mask w y1))
                             (map astype_int (mask w p1))) ;;
         ret (loc_set i [CStr name; CNum auc; CNum mcc;
                         CNum recall; CNum accuracy] df)) tr
    end
  /\ score_task cls i name y1 p1 w df tr = score_task cls i name y2 p2 w df tr
  /\ score_task reg i name y1 p1 w df tr = score_task reg i name y1 p1 w' df tr.
Proof.
  split; [now apply score_task_classification_masked|]. split.
  - unfold score_task. rewrite Hcls. eval_eqb.
    apply bind_congr; [now apply take_agree_on_weighted|]. intros ym tr1.
    apply bind_congr; [now apply take_agree_on_weighted|]. reflexivity.
  - unfold score_task. rewrite Hreg. reflexivity.
Qed.

(** X19: in the metrics step of a classification task, when
    [roc_auc_score] raises ValueError on the masked vectors,
    [compute_roc_auc_scores] does not raise: it warns and returns 0.5.
    When the three other metrics then return, the task gets its row,
    with 0.5 as its ROC-AUC. *)
Theorem roc_auc_failure_recorded_as_half
    (self : Evaluator) i name y y_pred w df tr msg mcc recall accuracy
    (Hcls : task_type self = "classification"%string)
    (Hly : List.length y = List.length w)
    (Hlp : List.length y_pred = List.length w)
    (Hne : mask w y <> [])
    (Hauc : roc_auc_score (map astype_int (mask w y))
              (map astype_int (mask w y_pred)) = Raised (ValueError msg))
    (Hmcc : matthews_corrcoef (map astype_int (mask w y))
              (map astype_int (mask w y_pred)) = Returned mcc)
    (Hrec : recall_score (map astype_int (mask w y))
              (map astype_int (mask w y_pred)) = Returned recall)
    (Hacc : accuracy_score (map astype_int (mask w y))
              (map astype_int (mask w y_pred)) = Returned accuracy) :
  compute_roc_auc_scores (map astype_int (mask w y))
    (map astype_int (mask w y_pred)) tr
  = (Returned 0.5%float,
     (tr ++ [EvWarn "ROC AUC score calculation failed."])%list)
  /\ score_task self i name y y_pred w df tr
     = (Returned (loc_set i [CStr name; CNum 0.5%float; CNum mcc;
                             CNum recall; CNum accuracy] df),
        (tr ++ [EvWarn "ROC AUC score calculation failed."])%list).
Proof.
  assert (Hroc : compute_roc_auc_scores (map astype_int (mask w y))
                   (map astype_int (mask w y_pred)) tr
                 = (Returned 0.5%float,
                    (tr ++ [EvWarn "ROC AUC score calculation failed."])%list)).
  { unfold compute_roc_auc_scores, try_except, lift. rewrite Hauc. reflexivity. }
  split; [exact Hroc|].
  rewrite score_task_classification_nonempty by assumption.
  rewrite (@bind_returned _ _ _ _ _ _ _ Hroc).
  unfold bind, lift. rewrite Hmcc, Hrec, Hacc. reflexivity.
Qed.

(** X20: in the metrics step of a regression task, when [r2_score]
    raises ValueError, or returns and [mean_squared_error] then raises
    ValueError, the step does not raise: it sets the row of the task
    with not-a-number for both metrics, the score of [r2_score]
    included, and adds no event. *)
Theorem regression_failure_recorded_as_nan
    (self : Evaluator) i name y y_pred w df tr
    (Hreg : task_type self = "regression"%string)
    (Hfail : (exists msg, r2_score y y_pred = Raised (ValueError msg))
             \/ (exists r2s msg,
                   r2_score y y_pred = Returned r2s
                   /\ mean_squared_error y y_pred = Raised (ValueError msg))) :
  score_task self i name y y_pred w df tr
  = (Returned (loc_set i [CStr name; CNum np_nan; CNum np_nan] df), tr).
Proof.
  unfold score_task. rewrite Hreg. eval_eqb.
  unfold try_except, bind, lift, ret.
  destruct Hfail as [[msg H] | (r2s & msg & H1 & H2)].
  - rewrite H. reflexivity.
  - rewrite H1, H2. reflexivity.
Qed.

End TaskProperties.

(** ** The properties on the fixtures *)

Lemma predictions_written_before_task_type_error_witness :
  unrecognized "ranking"
  /\ @compute_model_performance Reference.externals (evaluator_of "ranking")
       "preds.csv" "stats.csv" []
     = (Raised (ValueError "Unrecognized task type: ranking"),
        [EvLog "Saving predictions to preds.csv" false;
         EvToCsv "preds.csv" (PredTable table1)]).
Proof.
  assert (H : unrecognized "ranking") by (split; discriminate).
  split; [exact H|].
  exact (@predictions_written_before_task_type_error Reference.externals
           (evaluator_of "ranking") "preds.csv" "stats.csv" [] table1
           eq_refl H).
Defined.

Lemma task_type_checked_at_run_not_at_construction_witness :
  exists self,
    Evaluator_init (model_of "ranking") dataset1 [] false = Returned self
    /\ task_type self = "ranking"%string
    /\ @compute_model_performance Reference.externals self
         "preds.csv" "stats.csv" []
       = (Raised (ValueError "Unrecognized task type: ranking"),
          [EvLog "Saving predictions to preds.csv" false;
           EvToCsv "preds.csv" (PredTable table1)]).
Proof.
  destruct (@task_type_checked_at_run_not_at_construction Reference.externals
              (model_of "ranking") dataset1 [] false "t1" "ranking" []
              eq_refl)
    as (self & Hinit & Hty & _ & _ & Hrun).
  assert (Hun : unrecognized "ranking") by (split; discriminate).
  exists self. split; [exact Hinit|]. split; [exact Hty|].
  apply (Hrun Hun table1 "preds.csv"%string "stats.csv"%string []).
  reflexivity.
Defined.

Lemma reversal_call_raises_TypeError_witness :
  @compute_model_performance Reference.externals
    (evaluator_of "classification") "preds.csv" "stats.csv" []
  = (Raised (TypeError "undo_transforms() takes exactly 2 arguments (1 given)"),
     [EvLog "Saving predictions to preds.csv" false;
      EvToCsv "preds.csv" (PredTable table1)]).
Proof.
  apply (@reversal_call_raises_TypeError Reference.externals
           (evaluator_of "classification") "preds.csv" "stats.csv" []
           table1 "t1" [] [0; 1; 1]%float [0; 1; 0]%float [1; 1; 1]%float).
  - reflexivity.
  - left. reflexivity.
  - reflexivity.
  - reflexivity.
  - reflexivity.
  - reflexivity.
Defined.

(** The regression branch on a task whose two weights are zero. *)
Example regression_row_with_zero_weights :
  @score_task Reference.externals (evaluator_of "regression") 0 "t1"
    [1; 2]%float [1; 2]%float [0; 0]%float (empty_frame "regression") []
  = (Returned (mkPerfFrame regression_colnames
                 [(0, [CStr "t1"; CNum 1; CNum 0])]), []).
Proof. vm_compute. reflexivity. Qed.

(** The metrics step of a regression task whose weights are all zero
    does not leave the table as it was. *)
Lemma regression_task_with_zero_weights_gets_row :
  all_zero [0; 0]%float
  /\ fst (@score_task Reference.externals (evaluator_of "regression") 0 "t1"
            [1; 2]%float [1; 2]%float [0; 0]%float
            (empty_frame "regression") [])
     <> Returned (empty_frame "regression").
Proof.
  split.
  - repeat constructor.
  - rewrite regression_row_with_zero_weights. simpl. intros H.
    injection H as H. discriminate H.
Qed.

Lemma zero_weight_task_skipped_for_classification_witness :
  all_zero [0; 0]%float
  /\ @score_task Reference.externals (evaluator_of "classification") 0 "t1"
       [0; 1]%float [1; 1]%float [0; 0]%float
       (empty_frame "classification") []
     = (Returned (empty_frame "classification"), []).
Proof.
  assert (Hz : all_zero [0; 0]%float) by (repeat constructor).
  destruct (@zero_weight_task_skipped_for_classification Reference.externals
              (evaluator_of "classification") (evaluator_of "regression")
              0 "t1" [0; 1]%float [1; 1]%float [0; 0]%float
              (empty_frame "classification") [] eq_refl eq_refl Hz)
    as (Hskip & _ & _).
  split; [exact Hz | exact Hskip].
Defined.

(** A run over a dataset without tasks returns, with an empty table. *)
Example run_without_tasks :
  @compute_model_performance Reference.externals
    (evaluator_no_tasks "regression") "preds.csv" "stats.csv" []
  = (Returned (table1, empty_frame "regression"),
     [EvLog "Saving predictions to preds.csv" false;
      EvToCsv "preds.csv" (PredTable table1);
      EvLog "Saving model performance scores to stats.csv" false;
      EvToCsv "stats.csv" (PerfTable (empty_frame "regression"))]).
Proof. reflexivity. Qed.

(** The score that tells the root-mean-squared error of row 0 from zero. *)
Lemma rms_of_row0_differs
    (r1 r2 : outcome PerfFrame * list event) :
  (match fst r1 with
   | Returned df =>
       match rows df with
       | [(_, [_; _; CNum rms])] => PrimFloat.eqb rms 0
       | _ => false
       end
   | Raised _ => false
   end)
  <> (match fst r2 with
      | Returned df =>
          match rows df with
          | [(_, [_; _; CNum rms])] => PrimFloat.eqb rms 0
          | _ => false
          end
      | Raised _ => false
      end) ->
  r1 <> r2.
Proof. intros H ->. now apply H. Qed.

(** In the metrics step of a regression task the examples of weight
    zero count: the second example has weight zero, and changing its
    label from 2 to 5 changes the row of the task. *)
Lemma regression_metrics_see_zero_weight_examples :
  agree_on_weighted [1; 0]%float [1; 2]%float [1; 5]%float
  /\ @score_task Reference.externals (evaluator_of "regression") 0 "t1"
       [1; 2]%float [1; 2]%float [1; 0]%float (empty_frame "regression") []
     <> @score_task Reference.externals (evaluator_of "regression") 0 "t1"
          [1; 5]%float [1; 2]%float [1; 0]%float (empty_frame "regression") [].
Proof.
  split.
  - intros [|[|k]] x Hk Hx; simpl in Hk.
    + reflexivity.
    + injection Hk as <-. vm_compute in Hx. discriminate Hx.
    + destruct k; discriminate Hk.
  - apply rms_of_row0_differs. vm_compute. discriminate.
Qed.

Lemma zero_weight_examples_masked_for_classification_witness :
  agree_on_weighted [1; 0]%float [1; 1]%float [1; 0]%float
  /\ @score_task Reference.externals (evaluator_of "classification") 0 "t1"
       [1; 1]%float [1; 0]%float [1; 0]%float
       (empty_frame "classification") []
     = @score_task Reference.externals (evaluator_of "classification") 0 "t1"
         [1; 0]%float [1; 1]%float [1; 0]%float
         (empty_frame "classification") []
  /\ @score_task Reference.externals (evaluator_of "regression") 0 "t1"
       [1; 1]%float [1; 0]%float [1; 0]%float
       (empty_frame "classification") []
     = @score_task Reference.externals (evaluator_of "regression") 0 "t1"
         [1; 1]%float [1; 0]%float [7; 7]%float
         (empty_frame "classification") [].
Proof.
  assert (Hy : agree_on_weighted [1; 0]%float [1; 1]%float [1; 0]%float).
  { intros [|[|k]] x Hk Hx; simpl in Hk.
    - reflexivity.
    - injection Hk as <-. vm_compute in Hx. discriminate Hx.
    - destruct k; discriminate Hk. }
  assert (Hp : agree_on_weighted [1; 0]%float [1; 0]%float [1; 1]%float).
  { intros [|[|k]] x Hk Hx; simpl in Hk.
    - reflexivity.
    - injection Hk as <-. vm_compute in Hx. discriminate Hx.
    - destruct k; discriminate Hk. }
  split; [exact Hy|].
  exact (proj2 (@zero_weight_examples_masked_for_classification
                  Reference.externals
                  (evaluator_of "classification") (evaluator_of "regression")
                  0 "t1" [1; 1]%float [1; 0]%float [1; 0]%float [1; 1]%float
                  [1; 0]%float [7; 7]%float (empty_frame "classification") []
                  eq_refl eq_refl eq_refl eq_refl Hy Hp)).
Defined.

Lemma roc_auc_failure_recorded_as_half_witness :
  @compute_roc_auc_scores Reference.externals [0; 0]%Z [0; 1]%Z []
  = (Returned 0.5%float, [EvWarn "ROC AUC score calculation failed."])
  /\ @score_task Reference.externals (evaluator_of "classification") 0 "t1"
       [0; 0]%float [0; 1]%float [1; 1]%float
       (empty_frame "classification") []
     = (Returned (loc_set 0 [CStr "t1"; CNum 0.5%float; CNum 0%float;
                             CNum 0%float; CNum 0.5%float]
                    (empty_frame "classification")),
        [EvWarn "ROC AUC score calculation failed."]).
Proof.
  apply (@roc_auc_failure_recorded_as_half Reference.externals
           (evaluator_of "classification") 0 "t1"
           [0; 0]%float [0; 1]%float [1; 1]%float
           (empty_frame "classification") []
           "Only one class present in y_true. ROC AUC score is not defined in that case."
           0%float 0%float 0.5%float).
  - reflexivity.
  - reflexivity.
  - reflexivity.
  - vm_compute. discriminate.
  - vm_compute. reflexivity.
  - vm_compute. reflexivity.
  - vm_compute. reflexivity.
  - vm_compute. reflexivity.
Defined.

Lemma regression_failure_recorded_as_nan_witness :
  @score_task (with_mse (Raised (ValueError "Input contains NaN")))
    (evaluator_of "regression") 0 "t1"
    [1; 2; 3]%float [1; 2; 4]%float [1; 1; 1]%float
    (empty_frame "regression") []
  = (Returned (loc_set 0 [CStr "t1"; CNum np_nan; CNum np_nan]
                 (empty_frame "regression")), []).
Proof.
  apply (@regression_failure_recorded_as_nan
           (with_mse (Raised (ValueError "Input contains NaN")))
           (evaluator_of "regression") 0 "t1"
           [1; 2; 3]%float [1; 2; 4]%float [1; 1; 1]%float
           (empty_frame "regression") []).
  - reflexivity.
  - right. exists 0.5%float, "Input contains NaN"%string.
    split; [vm_compute; reflexivity | reflexivity].
Defined.

(** * Further properties of the module *)

(** ** A run, case by case *)

Section RunProperties.
Context {ext : Externals}.

(** The first iteration of the loop always raises, before any metric. *)
Lemma task_body_first (self : Evaluator) df i t performance_df tr :
  task_body self df (i, t) performance_df tr
  = (Raised (first_task_error df t), tr).
Proof.
  unfold task_body, slice_task, getitem, first_task_error, bind.
  destruct (column df t); [|reflexivity].
  destruct (column df (t ++ "_pred")%string); [|reflexivity].
  destruct (column df (t ++ "_weight")%string); reflexivity.
Qed.

(** Every path of [compute_model_performance]. *)
Lemma run_cases (self : Evaluator) csv_out stats_file tr :
  compute_model_performance self csv_out stats_file tr
  = match predict (model self) (dataset self) with
    | Raised e => (Raised e, tr)
    | Returned df =>
        match colnames_of (task_type self) with
        | None =>
            (Raised (ValueError
                       ("Unrecognized task type: " ++ task_type self)%string),
             (tr ++ predictions_saved self csv_out df)%list)
        | Some colnames =>
            match task_names self with
            | [] =>
                (Returned (df, mkPerfFrame colnames []),
                 (tr ++ predictions_saved self csv_out df
                     ++ stats_saved self stats_file
                          (mkPerfFrame colnames []))%list)
            | t :: _ =>
                (Raised (first_task_error df t),
                 (tr ++ predictions_saved self csv_out df)%list)
            end
        end
    end.
Proof.
  unfold compute_model_performance, lift, emit, colnames_of,
    predictions_saved, stats_saved.
  unfold bind at 1. destruct (predict (model self) (dataset self)) as [df|e];
    [|reflexivity].
  unfold bind at 1. unfold bind at 1.
  rewrite <- app_assoc. simpl app.
  assert (Hloop : forall colnames tr1,
    (performance_df <-
       for_each (enumerate (task_names self)) (task_body self df)
         (mkPerfFrame colnames []) ;;
     (fun tr0 => (Returned tt,
        (tr0 ++ [EvLog ("Saving model performance scores to " ++ stats_file)%string
                   (verbose self)])%list)) ;;
     (fun tr0 => (Returned tt,
        (tr0 ++ [EvToCsv stats_file (PerfTable performance_df)])%list)) ;;
     ret (df, performance_df)) tr1
    = match task_names self with
      | [] =>
          (Returned (df, mkPerfFrame colnames []),
           (tr1 ++ [EvLog ("Saving model performance scores to " ++ stats_file)%string
                      (verbose self);
                    EvToCsv stats_file (PerfTable (mkPerfFrame colnames []))])%list)
      | t :: _ => (Raised (first_task_error df t), tr1)
      end).
  { intros colnames tr1. destruct (task_names self) as [|t rest].
    - unfold enumerate, bind, ret. simpl. now rewrite <- app_assoc.
    - apply bind_raised. unfold enumerate. simpl combine.
      apply for_each_first_raises, task_body_first. }
  destruct (String.eqb (task_type self) "classification").
  - unfold bind at 1, ret at 1. rewrite Hloop.
    destruct (task_names self); [|reflexivity].
    now rewrite <- app_assoc.
  - destruct (String.eqb (task_type self) "regression").
    + unfold bind at 1, ret at 1. rewrite Hloop.
      destruct (task_names self); [|reflexivity].
      now rewrite <- app_assoc.
    + reflexivity.
Qed.

(** X1: an exception raised by the model's [predict] leaves the run as
    it is: nothing is logged and nothing is written. *)
Theorem predict_failure_propagates
    (self : Evaluator) csv_out stats_file tr e
    (Hpred : predict (model self) (dataset self) = Raised e) :
  compute_model_performance self csv_out stats_file tr = (Raised e, tr).
Proof. rewrite run_cases, Hpred. reflexivity. Qed.

(** X2: over a dataset with at least one task, a run never returns:
    whatever the model, the task type and the table, it raises. *)
Theorem run_with_tasks_never_returns
    (self : Evaluator) csv_out stats_file tr t rest
    (Htasks : task_names self = t :: rest) :
  exists e tr',
    compute_model_performance self csv_out stats_file tr = (Raised e, tr').
Proof.
  rewrite run_cases, Htasks.
  destruct (predict (model self) (dataset self)); [|eauto].
  destruct (colnames_of (task_type self)); eauto.
Qed.

(** X3: when the table lacks one of the three columns of the first task,
    a run with a recognized task type raises KeyError with the first of
    them that is missing, in the order label, prediction, weight, once
    the predictions are written. *)
Theorem missing_column_raises_KeyError
    (self : Evaluator) csv_out stats_file tr df colnames t rest
    (Hpred : predict (model self) (dataset self) = Returned df)
    (Hty : colnames_of (task_type self) = Some colnames)
    (Htasks : task_names self = t :: rest)
    (Hmiss : column df t = None
             \/ column df (t ++ "_pred")%string = None
             \/ column df (t ++ "_weight")%string = None) :
  exists key,
    compute_model_performance self csv_out stats_file tr
    = (Raised (KeyError key), (tr ++ predictions_saved self csv_out df)%list)
    /\ key = match column df t with
             | None => t
             | Some _ =>
                 match column df (t ++ "_pred")%string with
                 | None => (t ++ "_pred")%string
                 | Some _ => (t ++ "_weight")%string
                 end
             end
    /\ column df key = None
    /\ In key [t; (t ++ "_pred")%string; (t ++ "_weight")%string].
Proof.
  rewrite run_cases, Hpred, Hty, Htasks. unfold first_task_error.
  destruct (column df t) eqn:E1.
  - destruct (column df (t ++ "_pred")%string) eqn:E2.
    + destruct (column df (t ++ "_weight")%string) eqn:E3.
      * destruct Hmiss as [H | [H | H]]; discriminate H.
      * eexists. split; [reflexivity|]. split; [reflexivity|].
        split; [exact E3|]. simpl. auto.
    + eexists. split; [reflexivity|]. split; [reflexivity|].
      split; [exact E2|]. simpl. auto.
  - eexists. split; [reflexivity|]. split; [reflexivity|].
    split; [exact E1|]. simpl. auto.
Qed.

(** X4: a run returns exactly when the model predicts, the task type is
    recognized and the dataset has no task. *)
Theorem run_returns_iff (self : Evaluator) csv_out stats_file tr :
  (exists p perf tr',
     compute_model_performance self csv_out stats_file tr
     = (Returned (p, perf), tr'))
  <-> ((exists df, predict (model self) (dataset self) = Returned df)
       /\ colnames_of (task_type self) <> None
       /\ task_names self = []).
Proof.
  rewrite run_cases. split.
  - intros (p & perf & tr' & H).
    destruct (predict (model self) (dataset self)) as [df|e]; [|discriminate H].
    destruct (colnames_of (task_type self)) as [c|]; [|discriminate H].
    destruct (task_names self); [|discriminate H].
    repeat split; eauto. discriminate.
  - intros ((df & ->) & Hc & ->).
    destruct (colnames_of (task_type self)) as [c|]; [|contradiction].
    eauto.
Qed.

(** X5: the run over a dataset without tasks returns the prediction
    table of the model and a table without rows under the column names
    of the task type; it logs and writes the predictions, then logs and
    writes that table, in this order. *)
Theorem run_without_tasks_returns_empty_table
    (self : Evaluator) csv_out stats_file tr df colnames
    (Hpred : predict (model self) (dataset self) = Returned df)
    (Hty : colnames_of (task_type self) = Some colnames)
    (Htasks : task_names self = []) :
  compute_model_performance self csv_out stats_file tr
  = (Returned (df, mkPerfFrame colnames []),
     (tr ++ predictions_saved self csv_out df
         ++ stats_saved self stats_file (mkPerfFrame colnames []))%list).
Proof. rewrite run_cases, Hpred, Hty, Htasks. reflexivity. Qed.

(** X6: a run that raises has written nothing to the stats sink: its
    events are none at all, or the log and the write of the
    predictions. *)
Theorem failed_run_writes_no_stats
    (self : Evaluator) csv_out stats_file tr e tr'
    (Hrun : compute_model_performance self csv_out stats_file tr
            = (Raised e, tr')) :
  tr' = tr
  \/ exists df,
       predict (model self) (dataset self) = Returned df
       /\ tr' = (tr ++ predictions_saved self csv_out df)%list.
Proof.
  rewrite run_cases in Hrun.
  destruct (predict (model self) (dataset self)) as [df|e0].
  - right. exists df. split; [reflexivity|].
    destruct (colnames_of (task_type self)) as [c|].
    + destruct (task_names self); [discriminate Hrun|].
      now injection Hrun as _ <-.
    + now injection Hrun as _ <-.
  - left. now injection Hrun as _ <-.
Qed.

(** X7: as soon as the model predicts, the predictions are logged and
    written first, whatever the task type and the tasks are and however
    the run ends. *)
Theorem predictions_always_saved_first
    (self : Evaluator) csv_out stats_file tr df
    (Hpred : predict (model self) (dataset self) = Returned df) :
  exists later,
    snd (compute_model_performance self csv_out stats_file tr)
    = (tr ++ predictions_saved self csv_out df ++ later)%list.
Proof.
  rewrite run_cases, Hpred.
  destruct (colnames_of (task_type self)) as [c|].
  - destruct (task_names self).
    + eexists. reflexivity.
    + exists []. simpl snd. now rewrite app_nil_r.
  - exists []. simpl snd. now rewrite app_nil_r.
Qed.

End RunProperties.

(** ** The ROC-AUC fallback and the constructor *)

Section FallbackProperties.
Context {ext : Externals}.

(** X8: [compute_roc_auc_scores] never raises ValueError.  When
    [roc_auc_score] raises one, it warns once and returns 0.5; in every
    other case it warns of nothing and its outcome is that of
    [roc_auc_score], score or exception. *)
Theorem roc_auc_fallback_only_on_ValueError (y y_pred : list Z) tr :
  ~ configuration_error (fst (compute_roc_auc_scores y y_pred tr))
  /\ ((configuration_error (roc_auc_score y y_pred)
       /\ compute_roc_auc_scores y y_pred tr
          = (Returned 0.5%float, (tr ++ [roc_auc_warning])%list))
      \/ (~ configuration_error (roc_auc_score y y_pred)
          /\ compute_roc_auc_scores y y_pred tr
             = (roc_auc_score y y_pred, tr))).
Proof.
  unfold compute_roc_auc_scores, try_except, lift, configuration_error.
  destruct (roc_auc_score y y_pred) as [s|e]; simpl.
  - split; [intros (m & H); discriminate H|].
    right. split; [intros (m & H); discriminate H | reflexivity].
  - destruct e; simpl;
      try (split; [intros (m & H); discriminate H|];
           right; split; [intros (m & H); discriminate H | reflexivity]).
    split; [intros (m & H); discriminate H|].
    left. split; [eauto | reflexivity].
Qed.

End FallbackProperties.

(** X9: the constructor has one way to fail: it raises StopIteration,
    and does so exactly when the model has no task type. *)
Theorem constructor_fails_only_without_task_types
    (m : Model) (ds : Dataset) (trs : list Transform) (v : bool) (e : exn) :
  Evaluator_init m ds trs v = Raised e
  <-> (task_types m = [] /\ e = StopIteration).
Proof.
  unfold Evaluator_init. destruct (task_types m) as [|[k ty] rest]; split.
  - intros H. injection H as <-. auto.
  - intros [_ ->]. reflexivity.
  - discriminate.
  - intros [H _]. discriminate H.
Qed.

(** ** Masking, once more *)

Lemma mask_nonempty (w y : vec) :
  List.length y = List.length w ->
  Exists (fun x => PrimFloat.eqb x 0 = false) w ->
  mask w y <> [].
Proof.
  revert y. induction w as [|x w IH]; intros [|a y] Hlen Hex;
    try discriminate Hlen.
  - inversion Hex.
  - injection Hlen as Hlen. unfold mask in *. simpl.
    destruct (PrimFloat.eqb x 0) eqn:E; simpl.
    + apply IH; [assumption|].
      inversion Hex as [? ? Hx | ? ? Ht]; subst; [congruence | assumption].
    + discriminate.
Qed.

Lemma mask_combine (w y p : vec) :
  List.length y = List.length w ->
  List.length p = List.length w ->
  combine (mask w y) (mask w p)
  = map fst (filter (fun q => negb (PrimFloat.eqb (snd q) 0))
               (combine (combine y p) w)).
Proof.
  revert y p. induction w as [|x w IH]; intros [|a y] [|b p] Hy Hp;
    try discriminate Hy; try discriminate Hp.
  - reflexivity.
  - injection Hy as Hy. injection Hp as Hp.
    specialize (IH y p Hy Hp). unfold mask in *. simpl.
    destruct (PrimFloat.eqb x 0); simpl; [exact IH | now rewrite IH].
Qed.

Lemma mask_length (w y p : vec) :
  List.length y = List.length w ->
  List.length p = List.length w ->
  List.length (mask w y) = List.length (mask w p).
Proof.
  revert y p. induction w as [|x w IH]; intros [|a y] [|b p] Hy Hp;
    try discriminate Hy; try discriminate Hp.
  - reflexivity.
  - injection Hy as Hy. injection Hp as Hp.
    specialize (IH y p Hy Hp). unfold mask in *. simpl.
    destruct (PrimFloat.eqb x 0); simpl; [exact IH | now rewrite IH].
Qed.

(** X10: on columns as long as the weights, indexing by [w.nonzero()]
    does not raise, and it keeps the label and the prediction of an
    example together: the two vectors it returns pair up as the pairs
    (label, prediction) of the examples of nonzero weight, in order. *)
Theorem masking_keeps_examples_aligned (w y p : vec) tr
    (Hy : List.length y = List.length w)
    (Hp : List.length p = List.length w) :
  exists ym pm,
    take y (nonzero w) tr = (Returned ym, tr)
    /\ take p (nonzero w) tr = (Returned pm, tr)
    /\ combine ym pm
       = map fst (filter (fun q => negb (PrimFloat.eqb (snd q) 0))
                    (combine (combine y p) w))
    /\ List.length ym = List.length pm.
Proof.
  exists (mask w y), (mask w p).
  split; [now apply take_nonzero_mask|].
  split; [now apply take_nonzero_mask|].
  split; [now apply mask_combine|].
  now apply mask_length.
Qed.

(** ** The metrics of one task, once more *)

Lemma set_row_other (i j : nat) (r : list cell) rs :
  j <> i ->
  find (fun q => Nat.eqb (fst q) j) (set_row i r rs)
  = find (fun q => Nat.eqb (fst q) j) rs.
Proof.
  intros Hji. induction rs as [|[k r'] rs IH]; simpl.
  - destruct (Nat.eqb i j) eqn:E; [|reflexivity].
    apply Nat.eqb_eq in E. congruence.
  - destruct (Nat.eqb i k) eqn:E; simpl.
    + apply Nat.eqb_eq in E. subst k.
      destruct (Nat.eqb i j) eqn:E'; [|reflexivity].
      apply Nat.eqb_eq in E'. congruence.
    + destruct (Nat.eqb k j); [reflexivity | exact IH].
Qed.

Lemma loc_get_loc_set_other (i j : nat) (r : list cell) (df : PerfFrame) :
  j <> i -> loc_get j (loc_set i r df) = loc_get j df.
Proof.
  intros H. unfold loc_get, loc_set. simpl. now rewrite set_row_other.
Qed.

Section MoreTaskProperties.
Context {ext : Externals}.

Ltac break_hyp H :=
  match type of H with
  | context [match ?x with _ => _ end] => destruct x eqn:?
  | context [if ?x then _ else _] => destruct x eqn:?
  end.

Lemma compute_roc_auc_scores_events (y y_pred : list Z) tr :
  snd (compute_roc_auc_scores y y_pred tr) = tr
  \/ snd (compute_roc_auc_scores y y_pred tr) = (tr ++ [roc_auc_warning])%list.
Proof.
  unfold compute_roc_auc_scores, try_except, lift.
  destruct (roc_auc_score y y_pred) as [s|e]; [now left|].
  destruct (is_ValueError e); [now right | now left].
Qed.

(** X11: the metrics step of a task touches its own row only: when it
    returns, the column names are those it was given and the row of
    every other index is as it was. *)
Theorem score_task_keeps_other_rows
    (self : Evaluator) i name y y_pred w df tr df' tr'
    (Hret : score_task self i name y y_pred w df tr = (Returned df', tr')) :
  columns df' = columns df
  /\ forall j, j <> i -> loc_get j df' = loc_get j df.
Proof.
  apply score_task_returns in Hret as [-> | [r ->]].
  - split; reflexivity.
  - split; [reflexivity|]. intros j Hj. now apply loc_get_loc_set_other.
Qed.

(** X12: the metrics step writes no file and logs nothing.  Whether it
    returns or raises, it adds no event, or the one warning of the
    ROC-AUC fallback, and that only for a classification task. *)
Theorem score_task_adds_at_most_the_warning
    (self : Evaluator) i name y y_pred w df tr :
  snd (score_task self i name y y_pred w df tr) = tr
  \/ (snd (score_task self i name y y_pred w df tr)
      = (tr ++ [roc_auc_warning])%list
      /\ task_type self = "classification"%string).
Proof.
  destruct (score_task self i name y y_pred w df tr) as [o tr'] eqn:H.
  simpl snd.
  unfold score_task in H.
  destruct (String.eqb (task_type self) "classification") eqn:Ec.
  - apply String.eqb_eq in Ec.
    destruct (take_pure y (nonzero w)) as [oy Hy].
    destruct (take_pure y_pred (nonzero w)) as [op Hp].
    unfold bind at 1 in H. rewrite Hy in H.
    destruct oy as [ym|e]; [|injection H as _ <-; now left].
    unfold bind at 1 in H. rewrite Hp in H.
    destruct op as [pm|e]; [|injection H as _ <-; now left].
    destruct (map astype_int ym) as [|a ys];
      [injection H as _ <-; now left|].
    assert (Hroc := compute_roc_auc_scores_events
                      (a :: ys) (map astype_int pm) tr).
    unfold bind at 1 in H.
    destruct (compute_roc_auc_scores (a :: ys) (map astype_int pm) tr)
      as [[auc|e] tr1]; simpl snd in Hroc.
    + unfold bind, lift, ret in H.
      repeat (break_hyp H; try discriminate);
        injection H as _ <-; destruct Hroc; auto.
    + injection H as _ <-. destruct Hroc; auto.
  - left. destruct (String.eqb (task_type self) "regression").
    + unfold try_except, bind, lift, ret in H.
      destruct (r2_score y y_pred) as [r2s|e].
      * destruct (mean_squared_error y y_pred) as [mse|e].
        -- now injection H as _ <-.
        -- destruct (is_ValueError e); now injection H as _ <-.
      * destruct (is_ValueError e); now injection H as _ <-.
    + now injection H as _ <-.
Qed.

(** X13: a classification task with a nonzero weight is not skipped:
    when the four metrics return, its row is set to the task name
    followed by their four scores, and nothing is warned of. *)
Theorem classification_row_of_four_scores
    (self : Evaluator) i name y y_pred w df tr auc mcc recall accuracy
    (Hcls : task_type self = "classification"%string)
    (Hly : List.length y = List.length w)
    (Hlp : List.length y_pred = List.length w)
    (Hw : Exists (fun x => PrimFloat.eqb x 0 = false) w)
    (Hauc : roc_auc_score (map astype_int (mask w y))
              (map astype_int (mask w y_pred)) = Returned auc)
    (Hmcc : matthews_corrcoef (map astype_int (mask w y))
              (map astype_int (mask w y_pred)) = Returned mcc)
    (Hrec : recall_score (map astype_int (mask w y))
              (map astype_int (mask w y_pred)) = Returned recall)
    (Hacc : accuracy_score (map astype_int (mask w y))
              (map astype_int (mask w y_pred)) = Returned accuracy) :
  score_task self i name y y_pred w df tr
  = (Returned (loc_set i [CStr name; CNum auc; CNum mcc;
                          CNum recall; CNum accuracy] df), tr).
Proof.
  rewrite score_task_classification_nonempty;
    try assumption; [|now apply mask_nonempty].
  unfold compute_roc_auc_scores, try_except, bind, lift.
  rewrite Hauc, Hmcc, Hrec, Hacc. reflexivity.
Qed.

(** X14: only the ROC-AUC is guarded.  Once [compute_roc_auc_scores]
    has returned, an exception of [matthews_corrcoef], [recall_score] or
    [accuracy_score], ValueError included, leaves the task: no row is
    set. *)
Theorem classification_metric_failure_propagates
    (self : Evaluator) i name y y_pred w df tr auc tr1 e
    (Hcls : task_type self = "classification"%string)
    (Hly : List.length y = List.length w)
    (Hlp : List.length y_pred = List.length w)
    (Hne : mask w y <> [])
    (Hauc : compute_roc_auc_scores (map astype_int (mask w y))
              (map astype_int (mask w y_pred)) tr = (Returned auc, tr1))
    (Hfail :
       matthews_corrcoef (map astype_int (mask w y))
         (map astype_int (mask w y_pred)) = Raised e
       \/ (exists mcc,
             matthews_corrcoef (map astype_int (mask w y))
               (map astype_int (mask w y_pred)) = Returned mcc
             /\ recall_score (map astype_int (mask w y))
                  (map astype_int (mask w y_pred)) = Raised e)
       \/ (exists mcc recall,
             matthews_corrcoef (map astype_int (mask w y))
               (map astype_int (mask w y_pred)) = Returned mcc
             /\ recall_score (map astype_int (mask w y))
                  (map astype_int (mask w y_pred)) = Returned recall
             /\ accuracy_score (map astype_int (mask w y))
                  (map astype_int (mask w y_pred)) = Raised e)) :
  score_task self i name y y_pred w df tr = (Raised e, tr1).
Proof.
  rewrite score_task_classification_nonempty by assumption.
  rewrite (@bind_returned _ _ _ _ _ _ _ Hauc).
  unfold bind, lift.
  destruct Hfail as [H | [(mcc & H1 & H2) | (mcc & recall & H1 & H2 & H3)]].
  - rewrite H. reflexivity.
  - rewrite H1, H2. reflexivity.
  - rewrite H1, H2, H3. reflexivity.
Qed.

(** X15: when both regression metrics return, the row of the task is
    its name, the R2 score and the square root of the mean squared
    error; no event is added. *)
Theorem regression_row_of_r2_and_rms
    (self : Evaluator) i name y y_pred w df tr r2s mse
    (Hreg : task_type self = "regression"%string)
    (Hr2 : r2_score y y_pred = Returned r2s)
    (Hmse : mean_squared_error y y_pred = Returned mse) :
  score_task self i name y y_pred w df tr
  = (Returned (loc_set i [CStr name; CNum r2s; CNum (np_sqrt mse)] df), tr).
Proof.
  unfold score_task. rewrite Hreg. eval_eqb.
  unfold try_except, bind, lift, ret. rewrite Hr2, Hmse. reflexivity.
Qed.

(** X16: the regression branch recovers from ValueError alone: any other
    exception of [r2_score], or of [mean_squared_error] once [r2_score]
    has returned, leaves the task and no row is set. *)
Theorem regression_other_exception_propagates
    (self : Evaluator) i name y y_pred w df tr e
    (Hreg : task_type self = "regression"%string)
    (He : is_ValueError e = false)
    (Hfail : r2_score y y_pred = Raised e
             \/ (exists r2s,
                   r2_score y y_pred = Returned r2s
                   /\ mean_squared_error y y_pred = Raised e)) :
  score_task self i name y y_pred w df tr = (Raised e, tr).
Proof.
  unfold score_task. rewrite Hreg. eval_eqb.
  unfold try_except, bind, lift, ret.
  destruct Hfail as [H | (r2s & H1 & H2)].
  - rewrite H, He. reflexivity.
  - rewrite H1, H2, He. reflexivity.
Qed.

End MoreTaskProperties.

(** ** The further properties on the fixtures *)

Lemma predict_failure_propagates_witness :
  @compute_model_performance Reference.externals
    (evaluator_with (fun _ => Raised (RuntimeError "model is not fitted"))
       "classification") "preds.csv" "stats.csv" []
  = (Raised (RuntimeError "model is not fitted"), []).
Proof.
  apply (@predict_failure_propagates Reference.externals
           (evaluator_with (fun _ => Raised (RuntimeError "model is not fitted"))
              "classification") "preds.csv" "stats.csv" []).
  reflexivity.
Defined.

Lemma run_with_tasks_never_returns_witness :
  exists e tr',
    @compute_model_performance Reference.externals
      (evaluator_of "regression") "preds.csv" "stats.csv" []
    = (Raised e, tr').
Proof.
  apply (@run_with_tasks_never_returns Reference.externals
           (evaluator_of "regression") "preds.csv" "stats.csv" []
           "t1"%string []).
  reflexivity.
Defined.

Lemma missing_column_raises_KeyError_witness :
  exists key,
    @compute_model_performance Reference.externals
      (evaluator_with (fun _ => Returned table_pred_only) "regression")
      "preds.csv" "stats.csv" []
    = (Raised (KeyError key),
       [EvLog "Saving predictions to preds.csv" false;
        EvToCsv "preds.csv" (PredTable table_pred_only)])
    /\ key = "t1"%string
    /\ column table_pred_only key = None
    /\ In key ["t1"; "t1_pred"; "t1_weight"]%string.
Proof.
  apply (@missing_column_raises_KeyError Reference.externals
           (evaluator_with (fun _ => Returned table_pred_only) "regression")
           "preds.csv" "stats.csv" [] table_pred_only regression_colnames
           "t1"%string []).
  - reflexivity.
  - reflexivity.
  - reflexivity.
  - right. right. reflexivity.
Defined.

Lemma run_without_tasks_returns_empty_table_witness :
  @compute_model_performance Reference.externals
    (evaluator_no_tasks "classification") "preds.csv" "stats.csv" []
  = (Returned (table1, mkPerfFrame classification_colnames []),
     [EvLog "Saving predictions to preds.csv" false;
      EvToCsv "preds.csv" (PredTable table1);
      EvLog "Saving model performance scores to stats.csv" false;
      EvToCsv "stats.csv"
        (PerfTable (mkPerfFrame classification_colnames []))]).
Proof.
  apply (@run_without_tasks_returns_empty_table Reference.externals
           (evaluator_no_tasks "classification") "preds.csv" "stats.csv" []
           table1 classification_colnames).
  - reflexivity.
  - reflexivity.
  - reflexivity.
Defined.

Lemma failed_run_writes_no_stats_witness :
  [EvLog "Saving predictions to preds.csv" false;
   EvToCsv "preds.csv" (PredTable table1)] = []
  \/ exists df,
       predict (model (evaluator_of "ranking")) (dataset (evaluator_of "ranking"))
       = Returned df
       /\ [EvLog "Saving predictions to preds.csv" false;
           EvToCsv "preds.csv" (PredTable table1)]
          = ([] ++ predictions_saved (evaluator_of "ranking") "preds.csv" df)%list.
Proof.
  apply (@failed_run_writes_no_stats Reference.externals
           (evaluator_of "ranking") "preds.csv" "stats.csv" []
           (ValueError "Unrecognized task type: ranking")).
  reflexivity.
Defined.

Lemma predictions_always_saved_first_witness :
  exists later,
    snd (@compute_model_performance Reference.externals
           (evaluator_of "classification") "preds.csv" "stats.csv" [])
    = ([] ++ predictions_saved (evaluator_of "classification") "preds.csv"
               table1 ++ later)%list.
Proof.
  apply (@predictions_always_saved_first Reference.externals
           (evaluator_of "classification") "preds.csv" "stats.csv" [] table1).
  reflexivity.
Defined.

Lemma masking_keeps_examples_aligned_witness :
  exists ym pm,
    take [1; 2; 3]%float (nonzero [1; 0; 1]%float) [] = (Returned ym, [])
    /\ take [4; 5; 6]%float (nonzero [1; 0; 1]%float) [] = (Returned pm, [])
    /\ combine ym pm
       = map fst (filter (fun q => negb (PrimFloat.eqb (snd q) 0))
                    (combine (combine [1; 2; 3]%float [4; 5; 6]%float)
                       [1; 0; 1]%float))
    /\ List.length ym = List.length pm.
Proof.
  apply (@masking_keeps_examples_aligned
           [1; 0; 1]%float [1; 2; 3]%float [4; 5; 6]%float []).
  - reflexivity.
  - reflexivity.
Defined.

(** What [masking_keeps_examples_aligned] keeps of three examples whose
    second has weight zero. *)
Example masked_pairs :
  map fst (filter (fun q => negb (PrimFloat.eqb (snd q) 0))
             (combine (combine [1; 2; 3]%float [4; 5; 6]%float)
                [1; 0; 1]%float))
  = [(1, 4); (3, 6)]%float.
Proof. vm_compute. reflexivity. Qed.

Lemma score_task_keeps_other_rows_witness :
  columns (loc_set 1 [CStr "t2"; CNum 1; CNum 0]
             (loc_set 0 [CStr "t1"; CNum 1; CNum 0] (empty_frame "regression")))
  = columns (loc_set 0 [CStr "t1"; CNum 1; CNum 0] (empty_frame "regression"))
  /\ forall j, j <> 1 ->
       loc_get j (loc_set 1 [CStr "t2"; CNum 1; CNum 0]
                    (loc_set 0 [CStr "t1"; CNum 1; CNum 0]
                       (empty_frame "regression")))
       = loc_get j (loc_set 0 [CStr "t1"; CNum 1; CNum 0]
                      (empty_frame "regression")).
Proof.
  apply (@score_task_keeps_other_rows Reference.externals
           (evaluator_of "regression") 1 "t2"
           [1; 2]%float [1; 2]%float [1; 1]%float
           (loc_set 0 [CStr "t1"; CNum 1; CNum 0] (empty_frame "regression"))
           [] _ []).
  vm_compute. reflexivity.
Defined.

Lemma classification_row_of_four_scores_witness :
  @score_task Reference.externals (evaluator_of "classification") 0 "t1"
    [0; 0; 0; 1; 1]%float [0; 0; 1; 1; 1]%float [1; 1; 1; 1; 1]%float
    (empty_frame "classification") []
  = (Returned (loc_set 0 [CStr "t1"; CNum (5 / 6)%float; CNum (4 / 6)%float;
                          CNum 1%float; CNum (4 / 5)%float]
                 (empty_frame "classification")), []).
Proof.
  apply (@classification_row_of_four_scores Reference.externals
           (evaluator_of "classification") 0 "t1"
           [0; 0; 0; 1; 1]%float [0; 0; 1; 1; 1]%float [1; 1; 1; 1; 1]%float
           (empty_frame "classification") []).
  - reflexivity.
  - reflexivity.
  - reflexivity.
  - constructor. vm_compute. reflexivity.
  - vm_compute. reflexivity.
  - vm_compute. reflexivity.
  - vm_compute. reflexivity.
  - vm_compute. reflexivity.
Defined.

Lemma classification_metric_failure_propagates_witness :
  @score_task (with_mcc (Raised (ValueError "multiclass is not supported")))
    (evaluator_of "classification") 0 "t1"
    [0; 1]%float [0; 1]%float [1; 1]%float (empty_frame "classification") []
  = (Raised (ValueError "multiclass is not supported"), []).
Proof.
  apply (@classification_metric_failure_propagates
           (with_mcc (Raised (ValueError "multiclass is not supported")))
           (evaluator_of "classification") 0 "t1"
           [0; 1]%float [0; 1]%float [1; 1]%float
           (empty_frame "classification") [] 1%float []).
  - reflexivity.
  - reflexivity.
  - reflexivity.
  - vm_compute. discriminate.
  - vm_compute. reflexivity.
  - left. reflexivity.
Defined.

Lemma regression_row_of_r2_and_rms_witness :
  @score_task Reference.externals (evaluator_of "regression") 0 "t1"
    [1; 2; 3]%float [1; 2; 4]%float [1; 1; 1]%float
    (empty_frame "regression") []
  = (Returned (loc_set 0 [CStr "t1"; CNum 0.5%float;
                          CNum (np_sqrt (1 / 3)%float)]
                 (empty_frame "regression")), []).
Proof.
  apply (@regression_row_of_r2_and_rms Reference.externals
           (evaluator_of "regression") 0 "t1"
           [1; 2; 3]%float [1; 2; 4]%float [1; 1; 1]%float
           (empty_frame "regression") []).
  - reflexivity.
  - vm_compute. reflexivity.
  - vm_compute. reflexivity.
Defined.

Lemma regression_other_exception_propagates_witness :
  @score_task (with_r2 (Raised (TypeError "unsupported operand type")))
    (evaluator_of "regression") 0 "t1"
    [1; 2]%float [1; 2]%float [1; 1]%float (empty_frame "regression") []
  = (Raised (TypeError "unsupported operand type"), []).
Proof.
  apply (@regression_other_exception_propagates
           (with_r2 (Raised (TypeError "unsupported operand type")))
           (evaluator_of "regression") 0 "t1"
           [1; 2]%float [1; 2]%float [1; 1]%float
           (empty_frame "regression") []).
  - reflexivity.
  - reflexivity.
  - left. reflexivity.
Defined.

(** ** The run against the handling of single tasks *)


Section RunOnTasks.
Context {ext : Externals}.



(** The first task of a run with a recognized task type, when the table
    has its three columns. *)
Lemma run_first_task_TypeError
    (self : Evaluator) csv_out stats_file tr df colnames t rest y y_pred w :
  predict (model self) (dataset self) = Returned df ->
  colnames_of (task_type self) = Some colnames ->
  task_names self = t :: rest ->
  column df t = Some y ->
  column df (t ++ "_pred")%string = Some y_pred ->
  column df (t ++ "_weight")%string = Some w ->
  compute_model_performance self csv_out stats_file tr
  = (Raised (TypeError "undo_transforms() takes exactly 2 arguments (1 given)"),
     (tr ++ predictions_saved self csv_out df)%list).
Proof.
  intros Hpred Hty Htasks Hy Hp Hw.
  rewrite run_cases, Hpred, Hty, Htasks.
  unfold first_task_error. rewrite Hy, Hp, Hw. reflexivity.
Qed.


(** C8: on a classification task whose masked labels make
    [roc_auc_score] raise ValueError, [compute_roc_auc_scores] would
    warn and return 0.5, but the run does not get to it: it raises
    TypeError at the reversal of the label vector, with the predictions
    written, no warning, no row and no performance table. *)
Theorem degenerate_roc_auc_task_not_scored
    (self : Evaluator) csv_out stats_file tr df t rest y y_pred w msg
    (Hcls : task_type self = "classification"%string)
    (Htasks : task_names self = t :: rest)
    (Hpred : predict (model self) (dataset self) = Returned df)
    (Hy : column df t = Some y)
    (Hp : column df (t ++ "_pred")%string = Some y_pred)
    (Hw : column df (t ++ "_weight")%string = Some w)
    (Hauc : roc_auc_score (map astype_int (mask w y))
              (map astype_int (mask w y_pred)) = Raised (ValueError msg)) :
  (forall tr0,
     compute_roc_auc_scores (map astype_int (mask w y))
       (map astype_int (mask w y_pred)) tr0
     = (Returned 0.5%float, (tr0 ++ [roc_auc_warning])%list))
  /\ compute_model_performance self csv_out stats_file tr
     = (Raised (TypeError "undo_transforms() takes exactly 2 arguments (1 given)"),
        (tr ++ predictions_saved self csv_out df)%list).
Proof.
  split.
  - intros tr0. unfold compute_roc_auc_scores, try_except, lift.
    rewrite Hauc. reflexivity.
  - apply (@run_first_task_TypeError self csv_out stats_file tr df
             classification_colnames t rest y y_pred w); try assumption.
    unfold colnames_of. rewrite Hcls. reflexivity.
Qed.

(** C9: on a regression task for which [r2_score] raises ValueError, or
    returns while [mean_squared_error] raises ValueError, lines 118-125
    would set the row of the task with not-a-number for both metrics,
    but the run does not get to them: it raises TypeError at the
    reversal of the label vector, with the predictions written, no row
    and no performance table, and goes on to no other task. *)
Theorem degenerate_regression_task_not_scored
    (self : Evaluator) csv_out stats_file tr df t rest y y_pred w
    (Hreg : task_type self = "regression"%string)
    (Htasks : task_names self = t :: rest)
    (Hpred : predict (model self) (dataset self) = Returned df)
    (Hy : column df t = Some y)
    (Hp : column df (t ++ "_pred")%string = Some y_pred)
    (Hw : column df (t ++ "_weight")%string = Some w)
    (Hfail : (exists msg, r2_score y y_pred = Raised (ValueError msg))
             \/ (exists r2s msg,
                   r2_score y y_pred = Returned r2s
                   /\ mean_squared_error y y_pred = Raised (ValueError msg))) :
  (forall i performance_df tr0,
     score_task self i t y y_pred w performance_df tr0
     = (Returned (loc_set i [CStr t; CNum np_nan; CNum np_nan] performance_df),
        tr0))
  /\ compute_model_performance self csv_out stats_file tr
     = (Raised (TypeError "undo_transforms() takes exactly 2 arguments (1 given)"),
        (tr ++ predictions_saved self csv_out df)%list).
Proof.
  split.
  - intros i performance_df tr0.
    unfold score_task. rewrite Hreg. eval_eqb.
    unfold try_except, bind, lift, ret.
    destruct Hfail as [[msg H] | (r2s & msg & H1 & H2)].
    + rewrite H. reflexivity.
    + rewrite H1, H2. reflexivity.
  - apply (@run_first_task_TypeError self csv_out stats_file tr df
             regression_colnames t rest y y_pred w); try assumption.
    unfold colnames_of. rewrite Hreg. reflexivity.
Qed.

End RunOnTasks.

(** C3: a run computes no mask and no metric.  Its outcome and its
    events are the same under any two implementations of the cast and
    of the six metrics: none of them is called, on masked vectors or on
    full ones, for a task of either type. *)
Theorem run_computes_no_metric
    (ext1 ext2 : Externals) (self : Evaluator) csv_out stats_file tr :
  @compute_model_performance ext1 self csv_out stats_file tr
  = @compute_model_performance ext2 self csv_out stats_file tr.
Proof. rewrite !run_cases. reflexivity. Qed.

(** A run over a task with an example of weight zero, for each task
    type. *)
Example run_on_mixed_weights :
  @compute_model_performance Reference.externals
    (evaluator_with (fun _ => Returned table_mixed_weight) "classification")
    "preds.csv" "stats.csv" []
  = (Raised (TypeError "undo_transforms() takes exactly 2 arguments (1 given)"),
     [EvLog "Saving predictions to preds.csv" false;
      EvToCsv "preds.csv" (PredTable table_mixed_weight)])
  /\ @compute_model_performance Reference.externals
       (evaluator_with (fun _ => Returned table_mixed_weight) "regression")
       "preds.csv" "stats.csv" []
     = (Raised (TypeError "undo_transforms() takes exactly 2 arguments (1 given)"),
        [EvLog "Saving predictions to preds.csv" false;
         EvToCsv "preds.csv" (PredTable table_mixed_weight)]).
Proof. split; reflexivity. Qed.


Lemma degenerate_roc_auc_task_not_scored_witness :
  (forall tr0,
     @compute_roc_auc_scores Reference.externals [0; 0]%Z [0; 1]%Z tr0
     = (Returned 0.5%float, (tr0 ++ [roc_auc_warning])%list))
  /\ @compute_model_performance Reference.externals
       (evaluator_with (fun _ => Returned table_single_class) "classification")
       "preds.csv" "stats.csv" []
     = (Raised (TypeError "undo_transforms() takes exactly 2 arguments (1 given)"),
        [EvLog "Saving predictions to preds.csv" false;
         EvToCsv "preds.csv" (PredTable table_single_class)]).
Proof.
  apply (@degenerate_roc_auc_task_not_scored Reference.externals
           (evaluator_with (fun _ => Returned table_single_class)
              "classification")
           "preds.csv" "stats.csv" [] table_single_class "t1" []
           [0; 0]%float [0; 1]%float [1; 1]%float
           "Only one class present in y_true. ROC AUC score is not defined in that case.").
  - reflexivity.
  - reflexivity.
  - reflexivity.
  - reflexivity.
  - reflexivity.
  - reflexivity.
  - vm_compute. reflexivity.
Defined.

Lemma degenerate_regression_task_not_scored_witness :
  (forall i performance_df tr0,
     @score_task Reference.externals
       (evaluator_with (fun _ => Returned table_empty) "regression")
       i "t1" [] [] [] performance_df tr0
     = (Returned (loc_set i [CStr "t1"; CNum np_nan; CNum np_nan]
                    performance_df), tr0))
  /\ @compute_model_performance Reference.externals
       (evaluator_with (fun _ => Returned table_empty) "regression")
       "preds.csv" "stats.csv" []
     = (Raised (TypeError "undo_transforms() takes exactly 2 arguments (1 given)"),
        [EvLog "Saving predictions to preds.csv" false;
         EvToCsv "preds.csv" (PredTable table_empty)]).
Proof.
  apply (@degenerate_regression_task_not_scored Reference.externals
           (evaluator_with (fun _ => Returned table_empty) "regression")
           "preds.csv" "stats.csv" [] table_empty "t1" [] [] [] []).
  - reflexivity.
  - reflexivity.
  - reflexivity.
  - reflexivity.
  - reflexivity.
  - reflexivity.
  - left. exists "Found array with 0 sample(s)"%string. reflexivity.
Defined.
